(** * Weather pipeline: fetch, normalize, store

    A shallow embedding of [fetch_weather_data.py].  The script is one
    sequential loop doing network and database I/O, so the embedding is a
    state-and-exception monad over a [world] that holds the database file,
    the connection variable of [main], the lines printed so far and the
    trace of calls that leave the process.  What the outside returns (HTTP
    responses, the clock, failures of the storage layer) is read from an
    [environment]; what pandas parses out of strings is read from the
    [Pandas] interface. *)

From Stdlib Require Import Ascii QArith Qcanon.
From stdpp Require Import base numbers option list strings pretty gmap.

Set Warnings "-register-all".
Local Open Scope Z_scope.
Local Open Scope string_scope.

(** ** Python values *)

(** A Python float is held as the rational it denotes: the script only
    stores floats, compares them (primary key) and tests them for zero and
    for being whole. *)
Definition pyfloat := Qc.

(** What [response.json()] can return. *)
Inductive pyval :=
| PNone
| PBool (b : bool)
| PInt (z : Z)
| PFloat (q : pyfloat)
| PStr (s : string)
| PList (l : list pyval)
| PDict (d : gmap string pyval).

(** [if v:] *)
Definition truthy (v : pyval) : bool :=
  match v with
  | PNone => false
  | PBool b => b
  | PInt z => negb (Z.eqb z 0)
  | PFloat q => negb (bool_decide (q = Q2Qc 0))
  | PStr s => negb (String.eqb s "")
  | PList l => match l with [] => false | _ => true end
  | PDict d => negb (bool_decide (d = ∅))
  end.

(** The exceptions the script can meet.  [RequestException] stands for
    every class of [requests.exceptions] other than [HTTPError]
    (ConnectionError, Timeout, JSONDecodeError, ...), [SqliteError] for
    every [sqlite3.Error] other than [IntegrityError], [OtherException]
    for any further [Exception]. *)
Inductive exn :=
| TypeError (msg : string)
| KeyError (key : string)
| HTTPError (status_code : Z) (text : string)
| RequestException (msg : string)
| IntegrityError (msg : string)
| SqliteError (msg : string)
| OtherException (msg : string).

(** ** Registry *)

Record Location := {
  loc_latitude : pyfloat;
  loc_longitude : pyfloat;
  loc_timezone : string;
  loc_continent : string;
  loc_city : string
}.

Definition mkloc (lat lon : Q) (tz continent city : string) : Location :=
  {| loc_latitude := Q2Qc lat; loc_longitude := Q2Qc lon;
     loc_timezone := tz; loc_continent := continent; loc_city := city |}.

Definition LOCATIONS : list Location := [
  mkloc 34.0522 (-118.2437) "America/Los_Angeles" "North America" "Los Angeles";
  mkloc 40.7128 (-74.0060) "America/New_York" "North America" "New York";
  mkloc 45.4215 (-75.6972) "America/Toronto" "North America" "Ottawa";
  mkloc (-23.5505) (-46.6333) "America/Sao_Paulo" "South America" "Sao Paulo";
  mkloc (-33.4489) (-70.6693) "America/Santiago" "South America" "Santiago";
  mkloc 51.5074 (-0.1278) "Europe/London" "Europe" "London";
  mkloc 48.8566 2.3522 "Europe/Paris" "Europe" "Paris";
  mkloc 52.5200 13.4050 "Europe/Berlin" "Europe" "Berlin";
  mkloc 35.6895 139.6917 "Asia/Tokyo" "Asia" "Tokyo";
  mkloc 28.7041 77.1025 "Asia/Kolkata" "Asia" "New Delhi";
  mkloc 39.9042 116.4074 "Asia/Shanghai" "Asia" "Beijing";
  mkloc (-26.2041) 28.0473 "Africa/Johannesburg" "Africa" "Johannesburg";
  mkloc 30.0444 31.2357 "Africa/Cairo" "Africa" "Cairo";
  mkloc (-33.8688) 151.2093 "Australia/Sydney" "Australia" "Sydney";
  mkloc (-36.8485) 174.7633 "Pacific/Auckland" "Australia" "Auckland"
].

Definition API_BASE_URL : string := "https://api.open-meteo.com/v1/forecast".
Definition DB_FILE : string := "weather.db".

(** ** The database file *)

(** A number as pandas hands it to sqlite3. *)
Inductive number :=
| NInt (z : Z)
| NFloat (q : pyfloat).

(** One row of [weather_records]; [None] is SQL NULL. *)
Record Row := {
  timestamp : option string;
  temperature_celsius : option number;
  windspeed_ms : option number;
  weather_code : option Z;
  latitude : option pyfloat;
  longitude : option pyfloat;
  timezone : option string;
  continent : option string;
  city : option string;
  ingestion_timestamp : option string
}.

(** PRIMARY KEY (timestamp, latitude, longitude) *)
Definition primary_key (r : Row) : option string * option pyfloat * option pyfloat :=
  (timestamp r, latitude r, longitude r).

(** The three columns declared NOT NULL. *)
Definition not_null_ok (r : Row) : bool :=
  match timestamp r, latitude r, longitude r with
  | Some _, Some _, Some _ => true
  | _, _, _ => false
  end.

(** The table [weather_records].  [declared_schema] tells whether it was
    made by the CREATE TABLE statement of [create_weather_table] (NOT NULL
    columns and the composite primary key) or by [DataFrame.to_sql], which
    makes a missing table itself, with plain columns and no constraint. *)
Record table := {
  declared_schema : bool;
  rows : list Row
}.

Inductive connection := Open | Closed.

(** ** Output and trace *)

Record request := {
  req_url : string;
  req_latitude : pyfloat;
  req_longitude : pyfloat;
  req_current_weather : bool;
  req_timezone : string;
  req_timeout : Z
}.

(** One constructor per [print] of the script, with the values it
    interpolates. *)
Inductive log_entry :=
| LogStarting
| LogKeyNotFound (lat lon : pyfloat)
| LogHTTPError (lat lon : pyfloat) (status_code : Z) (text : string)
| LogRequestError (lat lon : pyfloat) (e : exn)
| LogTableProcessed
| LogCreateError (e : exn)
| LogStoreError (e : exn)
| LogStoreUnexpected (e : exn) (records : list Row)
| LogSkipping (city : string)
| LogFinished (records_processed : nat)
| LogMainError (e : exn)
| LogClosed.

(** Calls that leave the process, in the order they are made. *)
Inductive event :=
| EvConnect (file : string)
| EvExecuteCreate
| EvGet (r : request)
| EvSleep (seconds : Q)
| EvToSql (records : list Row)
| EvClose.

Record world := {
  db : option table;
  conn : option connection;
  stdout : list log_entry;
  trace : list event
}.

(** ** State and exceptions *)

Inductive outcome (A : Type) :=
| Returned (a : A)
| Raised (e : exn).
Arguments Returned {A} a.
Arguments Raised {A} e.

Definition M (A : Type) : Type := world → outcome A * world.

#[export] Instance M_ret : MRet M := λ A a w, (Returned a, w).

#[export] Instance M_bind : MBind M := λ A B f m w,
  match m w with
  | (Returned a, w') => f a w'
  | (Raised e, w') => (Raised e, w')
  end.

(** Code that touches nothing outside: only the exceptions. *)
#[export] Instance outcome_ret : MRet outcome := λ A a, Returned a.

#[export] Instance outcome_bind : MBind outcome := λ A B f o,
  match o with
  | Returned a => f a
  | Raised e => Raised e
  end.

Definition lift {A} (o : outcome A) : M A := λ w, (o, w).

Notation "m ;; k" := (mbind (λ _, k) m)
  (at level 100, k at level 200, right associativity).

Definition raise {A} (e : exn) : M A := λ w, (Raised e, w).

(** [try: body / except ...: handler].  The handler answers [None] for an
    exception no clause matches, which then goes on propagating. *)
Definition try_except {A} (body : M A) (handler : exn → option (M A)) : M A :=
  λ w, match body w with
       | (Returned a, w') => (Returned a, w')
       | (Raised e, w') =>
           match handler e with
           | Some h => h w'
           | None => (Raised e, w')
           end
       end.

(** [try: body / finally: final] *)
Definition try_finally {A} (body : M A) (final : M unit) : M A :=
  λ w, match body w with
       | (r, w') =>
           match final w' with
           | (Returned _, w'') => (r, w'')
           | (Raised e, w'') => (Raised e, w'')
           end
       end.

Definition add_log (l : log_entry) (w : world) : world :=
  {| db := db w; conn := conn w; stdout := stdout w ++ [l]; trace := trace w |}.

Definition add_event (ev : event) (w : world) : world :=
  {| db := db w; conn := conn w; stdout := stdout w; trace := trace w ++ [ev] |}.

Definition print (l : log_entry) : M unit := λ w, (Returned (), add_log l w).

Definition emit (ev : event) : M unit := λ w, (Returned (), add_event ev w).

Definition with_db (t : option table) (w : world) : world :=
  {| db := t; conn := conn w; stdout := stdout w; trace := trace w |}.

Definition with_conn (c : option connection) (w : world) : world :=
  {| db := db w; conn := c; stdout := stdout w; trace := trace w |}.

Definition set_db (t : option table) : M unit := λ w, (Returned (), with_db t w).

Definition set_conn (c : option connection) : M unit := λ w,
  (Returned (), with_conn c w).

Definition get_db : M (option table) := λ w, (Returned (db w), w).
Definition get_conn : M (option connection) := λ w, (Returned (conn w), w).

(** ** The outside *)

(** What [requests.get] does with a request: it raises for a failure of
    the transport (connection refused, timeout, DNS), or it returns a
    response.  [resp_json] is what [response.json()] decodes the body to,
    [None] for a body that is not JSON. *)
Inductive http_outcome :=
| TransportFailure (msg : string)
| Response (status_code : Z) (text : string) (resp_json : option pyval).

(** The parsers of pandas that the script calls on strings, and its
    formatting of time stamps.  [None] is NaT, respectively NaN. *)
Class Pandas := {
  Timestamp : Type;
  parse_datetime : string → option Timestamp;
  datetime_of_number : number → option Timestamp;
  parse_numeric : string → option number;
  strftime : string → Timestamp → string
}.

Record environment `{Pandas} := {
  (** [sqlite3.connect(DB_FILE)]: the exception it raises, if any *)
  sqlite3_connect : option exn;
  (** what makes [cursor.execute] or [conn.commit] fail, if anything *)
  execute_fault : option exn;
  (** the answer to the request of the [i]-th location *)
  requests_get : nat → request → http_outcome;
  (** [datetime.datetime.now(datetime.timezone.utc)] at the [i]-th location *)
  datetime_now : nat → Timestamp;
  (** what makes [to_sql] fail at the [i]-th location for a reason of the
      storage layer other than a constraint (locked file, full disk, ...) *)
  to_sql_fault : nat → option exn
}.

(** ** [fetch_current_weather] *)

(** [response.raise_for_status()] *)
Definition raise_for_status (status_code : Z) (text : string) : M unit :=
  if bool_decide (400 ≤ status_code < 600)%Z
  then raise (HTTPError status_code text)
  else mret ().

(** [response.json()]; requests raises its own JSONDecodeError, a
    RequestException, for a body that does not decode. *)
Definition response_json (resp_json : option pyval) : M pyval :=
  match resp_json with
  | Some data => mret data
  | None => raise (RequestException "JSONDecodeError")
  end.

(** [key in data] *)
Definition py_in (key : string) (data : pyval) : M bool :=
  match data with
  | PDict d => mret (bool_decide (is_Some (d !! key)))
  | PList l =>
      mret (existsb (λ x, match x with PStr s => String.eqb s key | _ => false end) l)
  | PStr s => mret (bool_decide (is_Some (String.index 0 key s)))
  | PNone | PBool _ | PInt _ | PFloat _ =>
      raise (TypeError "argument is not iterable")
  end.

(** [data[key]] *)
Definition py_getitem (data : pyval) (key : string) : M pyval :=
  match data with
  | PDict d =>
      match d !! key with
      | Some v => mret v
      | None => raise (KeyError key)
      end
  | PList _ => raise (TypeError "list indices must be integers or slices, not str")
  | PStr _ => raise (TypeError "string indices must be integers")
  | PNone | PBool _ | PInt _ | PFloat _ =>
      raise (TypeError "object is not subscriptable")
  end.

Definition do_get (get : request → http_outcome) (r : request) : M (Z * string * option pyval) :=
  emit (EvGet r);;
  match get r with
  | TransportFailure msg => raise (RequestException msg)
  | Response status_code text resp_json => mret (status_code, text, resp_json)
  end.

Definition fetch_current_weather (get : request → http_outcome)
    (latitude longitude : pyfloat) (timezone : string) : M pyval :=
  let params := {| req_url := API_BASE_URL;
                   req_latitude := latitude;
                   req_longitude := longitude;
                   req_current_weather := true;
                   req_timezone := timezone;
                   req_timeout := 15 |} in
  try_except
    ('(status_code, text, resp_json) ← do_get get params;
     raise_for_status status_code text;;
     data ← response_json resp_json;
     found ← py_in "current_weather" data;
     if found : bool then
       py_getitem data "current_weather"
     else
       print (LogKeyNotFound latitude longitude);;
       mret PNone)
    (λ e, match e with
          | HTTPError status_code text =>
              Some (print (LogHTTPError latitude longitude status_code text);;
                    mret PNone)
          | RequestException _ =>
              Some (print (LogRequestError latitude longitude e);;
                    mret PNone)
          | _ => None
          end).

(** ** [create_weather_table] *)

(** CREATE TABLE IF NOT EXISTS weather_records (...), then commit. *)
Definition execute_create (fault : option exn) : M unit :=
  emit EvExecuteCreate;;
  match fault with
  | Some e => raise e
  | None =>
      t ← get_db;
      match t with
      | Some _ => mret ()
      | None => set_db (Some {| declared_schema := true; rows := [] |})
      end
  end.

Definition is_sqlite3_Error (e : exn) : bool :=
  match e with
  | IntegrityError _ | SqliteError _ => true
  | _ => false
  end.

Definition create_weather_table (fault : option exn) : M unit :=
  try_except
    (execute_create fault;;
     print LogTableProcessed)
    (λ e, if is_sqlite3_Error e then Some (print (LogCreateError e)) else None).

(** ** [store_weather_data] *)

Section frames.
Context `{Pandas}.

(** A cell of a time column: of a datetime64 column ([None] is NaT), or of
    a column that holds text already. *)
Inductive time_cell :=
| DatetimeCell (t : option Timestamp)
| TextCell (s : option string).

(** One row of the frame [df_to_store], by column. *)
Record frame_row := {
  f_timestamp : time_cell;
  f_temperature_celsius : option number;
  f_windspeed_ms : option number;
  f_weather_code : option Z;
  f_latitude : pyfloat;
  f_longitude : pyfloat;
  f_timezone : string;
  f_continent : string;
  f_city : string;
  f_ingestion_timestamp : time_cell
}.

Definition DataFrame := list frame_row.

(** [column.dt.strftime(format)] where the column is of a datetime dtype;
    NaT formats to a null. *)
Definition dt_strftime (format : string) (c : time_cell) : option string :=
  match c with
  | DatetimeCell t => strftime format <$> t
  | TextCell s => s
  end.

(** The record pandas binds to the INSERT statement. *)
Definition to_record (r : frame_row) : Row :=
  {| timestamp := dt_strftime "%Y-%m-%dT%H:%M:%S" (f_timestamp r);
     temperature_celsius := f_temperature_celsius r;
     windspeed_ms := f_windspeed_ms r;
     weather_code := f_weather_code r;
     latitude := Some (f_latitude r);
     longitude := Some (f_longitude r);
     timezone := Some (f_timezone r);
     continent := Some (f_continent r);
     city := Some (f_city r);
     ingestion_timestamp :=
       dt_strftime "%Y-%m-%dT%H:%M:%S.%f" (f_ingestion_timestamp r) |}.

End frames.

(** INSERT of one row: sqlite checks the NOT NULL columns, then the
    primary key, where the table declares them. *)
Definition insert_row (t : table) (r : Row) : exn + table :=
  if declared_schema t then
    if negb (not_null_ok r) then
      inl (IntegrityError "NOT NULL constraint failed")
    else if bool_decide (primary_key r ∈ primary_key <$> rows t) then
      inl (IntegrityError "UNIQUE constraint failed: weather_records.timestamp, weather_records.latitude, weather_records.longitude")
    else inr {| declared_schema := true; rows := rows t ++ [r] |}
  else inr {| declared_schema := false; rows := rows t ++ [r] |}.

Fixpoint insert_rows (t : table) (rs : list Row) : exn + table :=
  match rs with
  | [] => inr t
  | r :: rs' =>
      match insert_row t r with
      | inl e => inl e
      | inr t' => insert_rows t' rs'
      end
  end.

(** [data_frame.to_sql('weather_records', conn, if_exists='append',
    index=False)]: one transaction; a missing table is made first, without
    constraints; a failed insert rolls the transaction back. *)
Definition to_sql (fault : option exn) (records : list Row) : M unit :=
  emit (EvToSql records);;
  match fault with
  | Some e => raise e
  | None =>
      t ← get_db;
      let t0 := default {| declared_schema := false; rows := [] |} t in
      match insert_rows t0 records with
      | inl e => raise e
      | inr t' => set_db (Some t')
      end
  end.

Definition store_weather_data `{Pandas} (fault : option exn) (data_frame : DataFrame) : M unit :=
  match data_frame with
  | [] => mret ()
  | _ =>
      let records := to_record <$> data_frame in
      try_except
        (to_sql fault records)
        (λ e, match e with
              | IntegrityError _ => Some (mret ())
              | SqliteError _ => Some (print (LogStoreError e))
              | _ => Some (print (LogStoreUnexpected e records))
              end)
  end.

(** ** [main] *)

Section pipeline.
Context `{Pandas}.

(** [pd.to_datetime(column, errors='coerce')] on the one cell of the
    column: a string goes to the parser, a number is a count since the
    epoch, a boolean column is refused whatever [errors] says, anything
    else is coerced to NaT. *)
Definition to_datetime (v : pyval) : outcome time_cell :=
  match v with
  | PStr s => mret (DatetimeCell (parse_datetime s))
  | PInt z => mret (DatetimeCell (datetime_of_number (NInt z)))
  | PFloat q => mret (DatetimeCell (datetime_of_number (NFloat q)))
  | PBool _ => Raised (TypeError "dtype bool cannot be converted to datetime64[ns]")
  | PNone | PList _ | PDict _ => mret (DatetimeCell None)
  end.

(** [pd.to_numeric(column, errors='coerce')] on the one cell of the
    column: numbers stay (a boolean reaches sqlite as 0 or 1), a string
    goes to the parser, anything else is coerced to NaN. *)
Definition to_numeric (v : pyval) : option number :=
  match v with
  | PInt z => Some (NInt z)
  | PFloat q => Some (NFloat q)
  | PBool b => Some (NInt (Z.b2z b))
  | PStr s => parse_numeric s
  | PNone | PList _ | PDict _ => None
  end.

(** [.astype('Int64')]: NaN becomes the null of the nullable integers, a
    float that is not whole is refused. *)
Definition astype_Int64 (n : option number) : outcome (option Z) :=
  match n with
  | None => mret None
  | Some (NInt z) => mret (Some z)
  | Some (NFloat q) =>
      if bool_decide (Qden (this q) = 1%positive)
      then mret (Some (Qnum (this q)))
      else Raised (TypeError "cannot safely cast non-equivalent float64 to int64")
  end.

(** [current_weather_data[name] = value]: only a dict takes it. *)
Definition py_setitem_target (v : pyval) : outcome (gmap string pyval) :=
  match v with
  | PDict d => mret d
  | PList _ => Raised (TypeError "list indices must be integers or slices, not str")
  | PNone | PBool _ | PInt _ | PFloat _ | PStr _ =>
      Raised (TypeError "object does not support item assignment")
  end.

(** [df[name]] on the frame made from the one dict. *)
Definition df_column (d : gmap string pyval) (name : string) : outcome pyval :=
  match d !! name with
  | Some v => mret v
  | None => Raised (KeyError name)
  end.

(** Lines 139 to 157 of the script: the labels of the location and the
    ingestion time are written into the dict, the frame is made from it,
    the four measured columns are coerced into new columns, and the ten
    columns of the table are selected.  The ten selected names are all
    written by these lines, so whatever the payload held under one of them
    is overwritten; the payload is read under [time], [temperature],
    [windspeed] and [weathercode] only.  Nothing here touches the outside. *)
Definition normalize (current_weather_data : pyval) (loc : Location)
    (now : Timestamp) : outcome DataFrame :=
  d ← py_setitem_target current_weather_data;
  time ← df_column d "time";
  df_timestamp ← to_datetime time;
  temperature ← df_column d "temperature";
  let df_temperature_celsius := to_numeric temperature in
  windspeed ← df_column d "windspeed";
  let df_windspeed_ms := to_numeric windspeed in
  weathercode ← df_column d "weathercode";
  df_weather_code ← astype_Int64 (to_numeric weathercode);
  mret [ {| f_timestamp := df_timestamp;
            f_temperature_celsius := df_temperature_celsius;
            f_windspeed_ms := df_windspeed_ms;
            f_weather_code := df_weather_code;
            f_latitude := loc_latitude loc;
            f_longitude := loc_longitude loc;
            f_timezone := loc_timezone loc;
            f_continent := loc_continent loc;
            f_city := loc_city loc;
            f_ingestion_timestamp := DatetimeCell (Some now) |} ].

(** [time.sleep(0.1)] *)
Definition sleep (seconds : Q) : M unit := emit (EvSleep seconds).

(** The body of [for loc in LOCATIONS], at the [i]-th location. *)
Definition loop_body (e : environment) (i : nat) (loc : Location)
    (records_processed : nat) : M nat :=
  current_weather_data ←
    fetch_current_weather (requests_get e i)
      (loc_latitude loc) (loc_longitude loc) (loc_timezone loc);
  sleep 0.1;;
  if truthy current_weather_data then
    df_to_store ← lift (normalize current_weather_data loc (datetime_now e i));
    store_weather_data (to_sql_fault e i) df_to_store;;
    mret (S records_processed)
  else
    print (LogSkipping (loc_city loc));;
    mret records_processed.

Fixpoint for_loc (e : environment) (i : nat) (locs : list Location)
    (records_processed : nat) : M nat :=
  match locs with
  | [] => mret records_processed
  | loc :: rest =>
      n ← loop_body e i loc records_processed;
      for_loc e (S i) rest n
  end.

(** [conn = sqlite3.connect(DB_FILE)] *)
Definition connect (e : environment) : M unit :=
  emit (EvConnect DB_FILE);;
  match sqlite3_connect e with
  | Some ex => raise ex
  | None => set_conn (Some Open)
  end.

(** [conn.close()] *)
Definition close : M unit :=
  emit EvClose;;
  set_conn (Some Closed).

(** The block under [try:] in [main], over the registry [locs]. *)
Definition main_try (locs : list Location) (e : environment) : M unit :=
  connect e;;
  create_weather_table (execute_fault e);;
  records_processed ← for_loc e 0 locs 0;
  print (LogFinished records_processed).

(** [main], with the registry as a parameter. *)
Definition main_over (locs : list Location) (e : environment) : M unit :=
  print LogStarting;;
  set_conn None;;
  try_finally
    (try_except
       (main_try locs e)
       (λ ex, Some (print (LogMainError ex))))
    (c ← get_conn;
     match c with
     | Some _ => close;; print LogClosed
     | None => mret ()
     end).

Definition main (e : environment) : M unit := main_over LOCATIONS e.

End pipeline.

(** ** A small instance of the pandas interface

    It reads the two forms the API itself sends, [YYYY-MM-DDTHH:MM] with
    or without seconds, and plain decimal numbers; every other string is
    unparseable.  It serves to run the pipeline on concrete inputs. *)

Module Iso.

Record datetime := {
  year : nat; month : nat; day : nat;
  hour : nat; minute : nat; second : nat; microsecond : nat
}.

Definition digit (c : ascii) : option nat :=
  let n := nat_of_ascii c in
  if bool_decide (48 ≤ n ≤ 57)%nat then Some (n - 48)%nat else None.

Fixpoint digits_from (acc : nat) (s : string) : option nat :=
  match s with
  | EmptyString => Some acc
  | String c s' => d ← digit c; digits_from (10 * acc + d)%nat s'
  end.

(** A non-empty run of decimal digits. *)
Definition digits (s : string) : option nat :=
  match s with
  | EmptyString => None
  | _ => digits_from 0%nat s
  end.

Definition field (s : string) (start len : nat) : option nat :=
  let f := String.substring start len s in
  if bool_decide (String.length f = len) then digits f else None.

Definition sep (s : string) (pos : nat) (c : string) : bool :=
  String.eqb (String.substring pos 1 s) c.

Definition parse_datetime (s : string) : option datetime :=
  let n := String.length s in
  if bool_decide (n = 16 ∨ n = 19)%nat
     && sep s 4 "-" && sep s 7 "-" && sep s 10 "T" && sep s 13 ":"
     && (bool_decide (n = 16%nat) || sep s 16 ":")
  then
    y ← field s 0 4; mo ← field s 5 2; d ← field s 8 2;
    h ← field s 11 2; mi ← field s 14 2;
    sec ← (if bool_decide (n = 16%nat) then Some 0%nat else field s 17 2);
    if bool_decide (1 ≤ mo ≤ 12 ∧ 1 ≤ d ≤ 31 ∧ h < 24 ∧ mi < 60 ∧ sec < 60)%nat
    then Some {| year := y; month := mo; day := d; hour := h;
                 minute := mi; second := sec; microsecond := 0 |}
    else None
  else None.

Definition pad (width : nat) (n : nat) : string :=
  let s := pretty n in
  String.concat "" (replicate (width - String.length s) "0") ++ s.

Definition strftime (format : string) (t : datetime) : string :=
  let seconds :=
    pad 4 (year t) ++ "-" ++ pad 2 (month t) ++ "-" ++ pad 2 (day t) ++ "T" ++
    pad 2 (hour t) ++ ":" ++ pad 2 (minute t) ++ ":" ++ pad 2 (second t) in
  if String.eqb format "%Y-%m-%dT%H:%M:%S.%f"
  then seconds ++ "." ++ pad 6 (microsecond t)
  else seconds.

(** [-]digits[.digits] *)
Definition parse_numeric (s : string) : option number :=
  let '(neg, body) :=
    match s with
    | String "-" s' => (true, s')
    | _ => (false, s)
    end in
  let sign (z : Z) := if neg : bool then (- z)%Z else z in
  match String.index 0 "." body with
  | None => n ← digits body; Some (NInt (sign (Z.of_nat n)))
  | Some i =>
      let whole := String.substring 0 i body in
      let frac := String.substring (S i) (String.length body - S i) body in
      w ← digits whole; f ← digits frac;
      let scale := (10 ^ String.length frac)%nat in
      Some (NFloat (Q2Qc (sign (Z.of_nat (w * scale + f)) # Pos.of_nat scale)))
  end.

Definition pandas : Pandas :=
  Build_Pandas datetime parse_datetime (λ _, None) parse_numeric strftime.

End Iso.

(** ** Views of a run *)

Definition new_world : world :=
  {| db := None; conn := None; stdout := []; trace := [] |}.

(** [w] with the output and the trace of [d] appended. *)
Definition extend (w d : world) : world :=
  {| db := db w; conn := conn w;
     stdout := stdout w ++ stdout d; trace := trace w ++ trace d |}.

Definition result {A} (r : outcome A * world) : outcome A := r.1.
Definition final {A} (r : outcome A * world) : world := r.2.

(** The request [fetch_current_weather] sends for a location. *)
Definition request_for (loc : Location) : request :=
  {| req_url := API_BASE_URL;
     req_latitude := loc_latitude loc;
     req_longitude := loc_longitude loc;
     req_current_weather := true;
     req_timezone := loc_timezone loc;
     req_timeout := 15 |}.

(** The answers on which [fetch_current_weather] reports a failure: the
    transport fails, the status is an error status, the body does not
    decode, or it decodes to an object without the key. *)
Definition fetch_failure (o : http_outcome) : bool :=
  match o with
  | TransportFailure _ => true
  | Response status_code _ body =>
      bool_decide (400 ≤ status_code < 600)%Z ||
      match body with
      | None => true
      | Some (PDict d) => bool_decide (d !! "current_weather" = None)
      | Some _ => false
      end
  end.

(** What [fetch_current_weather] hands back for a location: the code,
    run in [new_world]. *)
Definition fetched (get : request → http_outcome) (loc : Location) : outcome pyval :=
  result (fetch_current_weather get
            (loc_latitude loc) (loc_longitude loc) (loc_timezone loc) new_world).

(** What [fetch_current_weather] prints and emits for a location. *)
Definition fetch_output (get : request → http_outcome) (loc : Location) : world :=
  final (fetch_current_weather get
           (loc_latitude loc) (loc_longitude loc) (loc_timezone loc) new_world).

Definition is_get (ev : event) : bool :=
  match ev with EvGet _ => true | _ => false end.
Definition is_sleep (ev : event) : bool :=
  match ev with EvSleep _ => true | _ => false end.
Definition is_to_sql (ev : event) : bool :=
  match ev with EvToSql _ => true | _ => false end.

(** The outbound requests and the pauses of a trace, in order. *)
Definition pacing (tr : list event) : list event :=
  filter (λ ev, is_get ev || is_sleep ev) tr.

Definition stored_rows (w : world) : list Row :=
  match db w with
  | Some t => rows t
  | None => []
  end.



(** The driver goes on to normalize and store at the [i]-th location:
    [fetch_current_weather] returned something truthy. *)
Definition produces_record `{Pandas} (e : environment) (i : nat) (loc : Location) : bool :=
  match fetched (requests_get e i) loc with
  | Returned v => truthy v
  | Raised _ => false
  end.

(** The number of locations of [locs], the first of which is the [i]-th,
    for which a record is produced. *)
Fixpoint records_produced `{Pandas} (e : environment) (i : nat) (locs : list Location) : nat :=
  match locs with
  | [] => 0
  | loc :: rest =>
      (if produces_record e i loc then 1 else 0) + records_produced e (S i) rest
  end.

(** A request, then a pause of a tenth of a second, for each location. *)
Definition request_then_pause (locs : list Location) : list event :=
  locs ≫= λ loc, [EvGet (request_for loc); EvSleep 0.1].

(** The world once the fetch of the [i]-th location has returned and the
    driver has slept. *)
Definition slept `{Pandas} (e : environment) (i : nat) (loc : Location) (w : world) : world :=
  add_event (EvSleep 0.1) (extend w (fetch_output (requests_get e i) loc)).


(** The file after CREATE TABLE IF NOT EXISTS went through. *)
Definition created (w : world) : world :=
  match db w with
  | Some _ => w
  | None => with_db (Some {| declared_schema := true; rows := [] |}) w
  end.

(** The world after the [finally] clause of [main]. *)
Definition released (w : world) : world :=
  match conn w with
  | Some _ => add_log LogClosed (with_conn (Some Closed) (add_event EvClose w))
  | None => w
  end.

(** The world in which the [try] block of [main] starts. *)
Definition started (w : world) : world :=
  with_conn None (add_log LogStarting w).

(** sqlite refuses the row: the table declares the constraints and the
    row has a null in a NOT NULL column or the key of a stored row. *)
Definition violates (t : table) (r : Row) : bool :=
  declared_schema t &&
  (negb (not_null_ok r) || bool_decide (primary_key r ∈ primary_key <$> rows t)).

(** The table has the declared schema and its rows respect it. *)
Definition table_ok (t : table) : Prop :=
  declared_schema t = true ∧
  NoDup (primary_key <$> rows t) ∧
  Forall (λ r, not_null_ok r = true) (rows t).

(** The file has no table yet, or a table with the declared schema whose
    rows respect it. *)
Definition db_ok (w : world) : Prop :=
  match db w with
  | Some t => table_ok t
  | None => True
  end.

(** The primary keys held in the table of the file. *)
Definition stored_keys (w : world) : list (option string * option pyfloat * option pyfloat) :=
  primary_key <$> stored_rows w.

(** The table [to_sql] appends to: the one of the file, or the one it
    makes when the file has none. *)
Definition target_table (w : world) : table :=
  default {| declared_schema := false; rows := [] |} (db w).

(** The world after the [except] clauses of [store_weather_data] have
    dealt with [e]. *)
Definition after_store_error (e : exn) (records : list Row) (w : world) : world :=
  match e with
  | IntegrityError _ => w
  | SqliteError _ => add_log (LogStoreError e) w
  | _ => add_log (LogStoreUnexpected e records) w
  end.

(** ** Mock answers *)

Module Mock.

Definition observation (time temperature windspeed weathercode : pyval) : pyval :=
  PDict (list_to_map [("time", time); ("temperature", temperature);
                      ("windspeed", windspeed); ("weathercode", weathercode)]).

Definition ok (current_weather : pyval) : http_outcome :=
  Response 200 "" (Some (PDict {[ "current_weather" := current_weather ]})).

Definition noon : Iso.datetime :=
  {| Iso.year := 2024; Iso.month := 1; Iso.day := 1; Iso.hour := 12;
     Iso.minute := 0; Iso.second := 7; Iso.microsecond := 250 |}.


(** Nothing fails on the side of the storage; the API answers [get]. *)
Definition env (get : nat → request → http_outcome) (now : Iso.datetime)
    : @environment Iso.pandas :=
  @Build_environment Iso.pandas None None get (λ _, now) (λ _, None).

Definition sunny : pyval :=
  observation (PStr "2024-01-01T12:00") (PFloat (Q2Qc 21.5)) (PFloat (Q2Qc 3.4)) (PInt 1).

Definition garbled_time : pyval :=
  observation (PStr "noon-ish") (PFloat (Q2Qc 21.5)) (PFloat (Q2Qc 3.4)) (PInt 1).

Definition always (o : http_outcome) : nat → request → http_outcome := λ _ _, o.

Definition paris : Location :=
  mkloc 48.8566 2.3522 "Europe/Paris" "Europe" "Paris".
Definition tokyo : Location :=
  mkloc 35.6895 139.6917 "Asia/Tokyo" "Asia" "Tokyo".


(** A server error for the first location, a fine answer afterwards. *)
Definition down_then_up (i : nat) (_ : request) : http_outcome :=
  match i with
  | O => Response 500 "Internal Server Error" None
  | _ => ok sunny
  end.

(** A body that is the number 5 for the first location. *)
Definition scalar_then_up (i : nat) (_ : request) : http_outcome :=
  match i with
  | O => Response 200 "5" (Some (PInt 5))
  | _ => ok sunny
  end.


(** A row for Paris with the time stamp [ts] and no measurement. *)
Definition paris_row (ts : option Iso.datetime) : @frame_row Iso.pandas :=
  @Build_frame_row Iso.pandas
    (@DatetimeCell Iso.pandas ts) None None None
    (loc_latitude paris) (loc_longitude paris)
    "Europe/Paris" "Europe" "Paris"
    (@DatetimeCell Iso.pandas (Some noon)).

(** A payload without the [time] field. *)
Definition timeless : pyval :=
  PDict (list_to_map [("temperature", PFloat (Q2Qc 21.5));
                      ("windspeed", PFloat (Q2Qc 3.4)); ("weathercode", PInt 1)]).



End Mock.

(** ** Further views *)

(** A decoded body on which [fetch_current_weather] raises: the
    membership test refuses a scalar, and the subscript refuses a list
    that has the string among its elements or a string that contains it. *)
Definition body_breaks_fetch (data : pyval) : bool :=
  match data with
  | PNone | PBool _ | PInt _ | PFloat _ => true
  | PList l =>
      existsb (λ x, match x with
                    | PStr s => String.eqb s "current_weather"
                    | _ => false
                    end) l
  | PStr s => bool_decide (is_Some (String.index 0 "current_weather" s))
  | PDict _ => false
  end.

(** The four names under which [main] reads the payload, in the order in
    which it reads them. *)
Definition measured_fields : list string :=
  ["time"; "temperature"; "windspeed"; "weathercode"].

(** INSERT OR IGNORE: the table with the row appended when sqlite accepts
    it, the table as it is otherwise. *)
Definition insert_or_ignore (t : table) (r : Row) : table :=
  match insert_row t r with
  | inr t' => t'
  | inl _ => t
  end.

(** The records the turn for the [i]-th location hands to the storage
    layer: those of the normalized frame, none when the fetch hands back
    nothing truthy or something raises. *)
Definition attempt `{Pandas} (e : environment) (i : nat) (loc : Location) : list Row :=
  match fetched (requests_get e i) loc with
  | Returned v =>
      if truthy v then
        match normalize v loc (datetime_now e i) with
        | Returned df => to_record <$> df
        | Raised _ => []
        end
      else []
  | Raised _ => []
  end.

Fixpoint attempts `{Pandas} (e : environment) (i : nat) (locs : list Location) : list Row :=
  match locs with
  | [] => []
  | loc :: rest => attempt e i loc ++ attempts e (S i) rest
  end.

Definition is_skipping (l : log_entry) : bool :=
  match l with LogSkipping _ => true | _ => false end.

(** ** Computations that only write *)

(** [m] reads nothing of the world and changes neither the database nor
    the connection: it returns what it returns in [new_world] and appends
    what it prints and emits there. *)
Definition writes {A} (m : M A) : Prop :=
  ∀ w, m w = (result (m new_world), extend w (final (m new_world))).

(** * Proofs *)

Local Open Scope nat_scope.
Local Open Scope list_scope.

(** ** The monad *)

Section monad_facts.
Context {A B : Type}.

Lemma extend_new_world w : extend w new_world = w.
Proof. destruct w; unfold extend; simpl; by rewrite !app_nil_r. Qed.

Lemma extend_assoc w a b :
  extend (extend w a) b = extend w (extend (extend new_world a) b).
Proof. unfold extend; simpl; by rewrite !app_assoc. Qed.

Lemma writes_ret (a : A) : writes (mret a).
Proof. intros w. unfold mret, M_ret, result, final; simpl. by rewrite extend_new_world. Qed.

Lemma writes_raise e : writes (@raise A e).
Proof. intros w. unfold raise, result, final; simpl. by rewrite extend_new_world. Qed.

Lemma writes_bind (m : M A) (f : A → M B) :
  writes m → (∀ a, writes (f a)) → writes (m ≫= f).
Proof.
  intros Hm Hf w. unfold mbind, M_bind. rewrite (Hm w).
  destruct (m new_world) as [[a|e] d] eqn:E; unfold result, final; simpl; [|done].
  rewrite (Hf a (extend w d)), (Hf a d). unfold result, final; simpl.
  destruct (f a new_world) as [r d']; simpl.
  by rewrite (extend_assoc w d d').
Qed.

Lemma writes_try_except (body : M A) (handler : exn → option (M A)) :
  writes body → (∀ e h, handler e = Some h → writes h) →
  writes (try_except body handler).
Proof.
  intros Hb Hh w. unfold try_except. rewrite (Hb w).
  destruct (body new_world) as [[a|e] d] eqn:E; unfold result, final; simpl; [done|].
  destruct (handler e) as [h|] eqn:Eh; [|done].
  rewrite (Hh e h Eh (extend w d)), (Hh e h Eh d). unfold result, final; simpl.
  destruct (h new_world) as [r d']; simpl.
  by rewrite (extend_assoc w d d').
Qed.

End monad_facts.

Lemma writes_print l : writes (print l).
Proof.
  intros w. unfold print, add_log, extend, result, final; simpl.
  by rewrite app_nil_r.
Qed.

Lemma writes_emit ev : writes (emit ev).
Proof.
  intros w. unfold emit, add_event, extend, result, final; simpl.
  by rewrite app_nil_r.
Qed.

Create HintDb writes.
#[local] Hint Resolve writes_ret writes_raise writes_print writes_emit : writes.

(** ** [fetch_current_weather] *)

Lemma raise_for_status_writes status_code text :
  writes (raise_for_status status_code text).
Proof. unfold raise_for_status. case_bool_decide; auto with writes. Qed.

Lemma response_json_writes body : writes (response_json body).
Proof. destruct body; simpl; auto with writes. Qed.

Lemma py_in_writes key data : writes (py_in key data).
Proof. destruct data; simpl; auto with writes. Qed.

Lemma py_getitem_writes data key : writes (py_getitem data key).
Proof.
  destruct data; simpl; auto with writes.
  destruct (_ !! _); auto with writes.
Qed.

Lemma do_get_writes get r : writes (do_get get r).
Proof.
  unfold do_get. apply writes_bind; [auto with writes|intros _].
  destruct (get r); auto with writes.
Qed.

#[local] Hint Resolve raise_for_status_writes response_json_writes py_in_writes
  py_getitem_writes do_get_writes : writes.

Lemma fetch_current_weather_writes get latitude longitude timezone :
  writes (fetch_current_weather get latitude longitude timezone).
Proof.
  unfold fetch_current_weather. apply writes_try_except.
  - apply writes_bind; [auto with writes|]. intros [[status_code text] body].
    apply writes_bind; [auto with writes|]. intros _.
    apply writes_bind; [auto with writes|]. intros data.
    apply writes_bind; [auto with writes|]. intros [|]; [auto with writes|].
    apply writes_bind; auto with writes.
  - intros e h. destruct e; intros [= <-]; apply writes_bind; auto with writes.
Qed.

(** The run of [fetch_current_weather] in any world, from its run in
    [new_world]. *)
Lemma fetch_current_weather_run get loc w :
  fetch_current_weather get (loc_latitude loc) (loc_longitude loc) (loc_timezone loc) w
  = (fetched get loc, extend w (fetch_output get loc)).
Proof. apply fetch_current_weather_writes. Qed.

(** C4 (as amended).  For every invocation of [fetch_current_weather]:
    on a failure of the transport it logs the error and returns None; on
    an error status (4xx, 5xx) it logs the status code and the body and
    returns None; on any other status, with a body that does not decode,
    it logs the error and returns None; with a body that decodes to an
    object holding [current_weather] it returns what is stored under that
    key, logging nothing; with an object lacking the key it logs the
    warning and returns None.  In each of these cases one request is sent
    and nothing is raised.  Bodies that decode to something other than an
    object are left out of the statement. *)
Theorem fetch_current_weather_cases get latitude longitude timezone w :
  let r := {| req_url := API_BASE_URL; req_latitude := latitude;
              req_longitude := longitude; req_current_weather := true;
              req_timezone := timezone; req_timeout := 15 |} in
  let sent := add_event (EvGet r) w in
  let run := fetch_current_weather get latitude longitude timezone w in
  match get r with
  | TransportFailure msg =>
      run = (Returned PNone,
             add_log (LogRequestError latitude longitude (RequestException msg)) sent)
  | Response status_code text body =>
      if bool_decide (400 ≤ status_code < 600)%Z then
        run = (Returned PNone,
               add_log (LogHTTPError latitude longitude status_code text) sent)
      else
        match body with
        | None =>
            run = (Returned PNone,
                   add_log (LogRequestError latitude longitude
                              (RequestException "JSONDecodeError")) sent)
        | Some (PDict d) =>
            match d !! "current_weather" with
            | Some v => run = (Returned v, sent)
            | None =>
                run = (Returned PNone,
                       add_log (LogKeyNotFound latitude longitude) sent)
            end
        | Some _ => True
        end
  end.
Proof.
  intros r sent run. subst run sent.
  unfold fetch_current_weather, try_except, do_get, mbind, M_bind, emit; simpl.
  fold r. destruct (get r) as [msg|status_code text body]; [done|]. simpl.
  unfold raise_for_status. case_bool_decide as Hs; [done|]. simpl.
  destruct body as [[| | | | | |d]|]; try done. simpl.
  destruct (d !! "current_weather") as [v|] eqn:E.
  - done.
  - done.
Qed.

(** C4, where it fails: the answer is a 200 whose object holds
    [current_weather] with a null under it; [fetch_current_weather]
    returns None without any of the failures having happened. *)
Lemma fetch_returns_none_without_failure :
  let get := Mock.always (Mock.ok PNone) 0%nat in
  ¬ (fetched get Mock.paris = Returned PNone →
     fetch_failure (get (request_for Mock.paris)) = true).
Proof. intros get Hc. by specialize (Hc eq_refl). Qed.

(** A 200 whose body decodes to a number: the membership test raises a
    TypeError that no clause of [fetch_current_weather] catches. *)
Lemma fetch_raises_on_scalar_body latitude longitude timezone w :
  ∃ w', fetch_current_weather (λ _, Response 200 "5" (Some (PInt 5)))
          latitude longitude timezone w
        = (Raised (TypeError "argument is not iterable"), w').
Proof. by eexists. Qed.

(** ** The table and [store_weather_data] *)

Lemma insert_row_violates t r :
  violates t r = true → ∃ msg, insert_row t r = inl (IntegrityError msg).
Proof.
  unfold violates, insert_row. destruct (declared_schema t); [|done]. simpl.
  destruct (negb (not_null_ok r)); simpl; [by eexists|].
  intros ->. by eexists.
Qed.

Lemma insert_row_accepts t r :
  violates t r = false →
  insert_row t r = inr {| declared_schema := declared_schema t; rows := rows t ++ [r] |}.
Proof.
  unfold violates, insert_row. destruct (declared_schema t); [|done]. simpl.
  destruct (negb (not_null_ok r)); simpl; [done|]. by intros ->.
Qed.

Lemma insert_row_inv t r t' :
  insert_row t r = inr t' →
  violates t r = false ∧ declared_schema t' = declared_schema t ∧
  rows t' = rows t ++ [r].
Proof.
  destruct (violates t r) eqn:E.
  - destruct (insert_row_violates _ _ E) as [msg ->]. done.
  - rewrite (insert_row_accepts _ _ E). by intros [= <-].
Qed.

Lemma insert_rows_inv rs : ∀ t t',
  insert_rows t rs = inr t' →
  declared_schema t' = declared_schema t ∧ rows t' = rows t ++ rs.
Proof.
  induction rs as [|r rs IH]; intros t t'; simpl.
  - intros [= <-]. by rewrite app_nil_r.
  - destruct (insert_row t r) as [e|t1] eqn:E; [done|]. intros Hrs.
    apply insert_row_inv in E as (_ & Hd & Hr).
    apply IH in Hrs as [Hd' Hr']. split; [congruence|].
    by rewrite Hr', Hr, <-app_assoc.
Qed.



Section store_facts.
Context `{Pandas}.

(** The run of [store_weather_data] on a frame that is not empty: it
    always returns; the table changes only when every insert was accepted. *)
Lemma store_weather_data_run fault (df : DataFrame) w :
  df ≠ [] →
  store_weather_data fault df w =
    (Returned (),
     let records := to_record <$> df in
     let called := add_event (EvToSql records) w in
     match fault with
     | Some e => after_store_error e records called
     | None =>
         match insert_rows (target_table w) records with
         | inl e => after_store_error e records called
         | inr t' => with_db (Some t') called
         end
     end).
Proof.
  intros Hne. destruct df as [|r df]; [done|].
  unfold store_weather_data, try_except, to_sql, mbind, M_bind, emit. simpl.
  destruct fault as [e|].
  - unfold raise. by destruct e.
  - unfold get_db, target_table. simpl.
    destruct (insert_row _ _) as [e|t1]; simpl.
    + unfold raise. by destruct e.
    + destruct (insert_rows t1 _) as [e|t2]; simpl; [|done].
      unfold raise. by destruct e.
Qed.

Lemma store_weather_data_returns fault (df : DataFrame) w :
  ∃ w', store_weather_data fault df w = (Returned (), w').
Proof.
  destruct df as [|r df]; [by eexists|].
  rewrite store_weather_data_run by done. by eexists.
Qed.

Lemma after_store_error_db e records w :
  db (after_store_error e records w) = db w.
Proof. by destruct e. Qed.

Lemma after_store_error_conn e records w :
  conn (after_store_error e records w) = conn w.
Proof. by destruct e. Qed.

Lemma after_store_error_trace e records w :
  trace (after_store_error e records w) = trace w.
Proof. by destruct e. Qed.

End store_facts.

(** ** [normalize] *)

Section normalize_facts.
Context `{Pandas}.

Lemma normalize_inv v loc now df :
  normalize v loc now = Returned df →
  ∃ d time temperature windspeed weathercode ts code,
    v = PDict d ∧
    d !! "time" = Some time ∧ d !! "temperature" = Some temperature ∧
    d !! "windspeed" = Some windspeed ∧ d !! "weathercode" = Some weathercode ∧
    to_datetime time = Returned ts ∧
    astype_Int64 (to_numeric weathercode) = Returned code ∧
    df = [ {| f_timestamp := ts;
              f_temperature_celsius := to_numeric temperature;
              f_windspeed_ms := to_numeric windspeed;
              f_weather_code := code;
              f_latitude := loc_latitude loc;
              f_longitude := loc_longitude loc;
              f_timezone := loc_timezone loc;
              f_continent := loc_continent loc;
              f_city := loc_city loc;
              f_ingestion_timestamp := DatetimeCell (Some now) |} ].
Proof.
  unfold normalize, df_column, mbind, outcome_bind.
  destruct v as [| | | | | |d]; try done. simpl.
  destruct (d !! "time") as [time|] eqn:Etime; simpl; [|done].
  destruct (to_datetime time) as [ts|] eqn:Et; simpl; [|done].
  destruct (d !! "temperature") as [temperature|] eqn:Etemperature; simpl; [|done].
  destruct (d !! "windspeed") as [windspeed|] eqn:Ewindspeed; simpl; [|done].
  destruct (d !! "weathercode") as [weathercode|] eqn:Eweathercode; simpl; [|done].
  destruct (astype_Int64 (to_numeric weathercode)) as [code|] eqn:Ec; simpl; [|done].
  intros [= <-]. by exists d, time, temperature, windspeed, weathercode, ts, code.
Qed.



End normalize_facts.


(** ** The loop *)

Lemma fetch_output_trace get loc :
  trace (fetch_output get loc) = [EvGet (request_for loc)].
Proof.
  unfold fetch_output, final, fetch_current_weather, try_except, do_get,
    mbind, M_bind, emit. simpl.
  fold (request_for loc). destruct (get (request_for loc)) as [msg|code text body]; [done|].
  simpl. unfold raise_for_status. case_bool_decide; [done|]. simpl.
  destruct body as [[| | | | |l|d]|]; try done; simpl.
  - destruct (bool_decide _); simpl; done.
  - destruct (existsb _ l); simpl; done.
  - destruct (d !! "current_weather"); simpl; done.
Qed.

Section loop_facts.
Context `{Pandas}.

Lemma normalize_not_empty v loc now df :
  normalize v loc now = Returned df → df ≠ [].
Proof.
  intros Hn. apply normalize_inv in Hn as (?&?&?&?&?&?&?&_&_&_&_&_&_&_&->). done.
Qed.

(** One turn of the loop, by cases on what the fetch hands back. *)
Lemma loop_body_run e i loc n w :
  loop_body e i loc n w =
    match fetched (requests_get e i) loc with
    | Raised ex => (Raised ex, extend w (fetch_output (requests_get e i) loc))
    | Returned v =>
        if truthy v then
          match normalize v loc (datetime_now e i) with
          | Raised ex => (Raised ex, slept e i loc w)
          | Returned df =>
              (Returned (S n),
               final (store_weather_data (to_sql_fault e i) df (slept e i loc w)))
          end
        else (Returned n, add_log (LogSkipping (loc_city loc)) (slept e i loc w))
    end.
Proof.
  unfold loop_body, mbind at 1, M_bind at 1. rewrite fetch_current_weather_run.
  destruct (fetched _ _) as [v|ex]; [|done].
  unfold sleep, emit, mbind at 1, M_bind at 1. fold (slept e i loc w).
  destruct (truthy v); [|done].
  unfold lift, mbind at 1, M_bind at 1.
  destruct (normalize _ _ _) as [df|ex]; [|done].
  unfold mbind, M_bind.
  destruct (store_weather_data_returns (to_sql_fault e i) df (slept e i loc w)) as [w' ->].
  done.
Qed.

Lemma store_weather_data_trace fault (df : DataFrame) w :
  df ≠ [] →
  trace (final (store_weather_data fault df w)) =
    trace w ++ [EvToSql (to_record <$> df)].
Proof.
  intros Hne. rewrite store_weather_data_run by done. unfold final. simpl.
  destruct fault as [ex|]; [by rewrite after_store_error_trace|].
  destruct (insert_rows (target_table w) _); [by rewrite after_store_error_trace|done].
Qed.

Lemma store_weather_data_conn fault (df : DataFrame) w :
  conn (final (store_weather_data fault df w)) = conn w.
Proof.
  destruct (decide (df = [])) as [->|Hne]; [done|].
  rewrite store_weather_data_run by done. unfold final. simpl.
  destruct fault as [ex|]; [by rewrite after_store_error_conn|].
  destruct (insert_rows (target_table w) _); [by rewrite after_store_error_conn|done].
Qed.




Lemma fetched_observation get loc status_code text d v :
  get (request_for loc) = Response status_code text (Some (PDict d)) →
  ¬ (400 ≤ status_code < 600)%Z →
  d !! "current_weather" = Some v →
  fetched get loc = Returned v.
Proof.
  intros Hg Hs Hd.
  unfold fetched, result, fetch_current_weather, try_except, do_get,
    mbind, M_bind, emit. simpl. fold (request_for loc). rewrite Hg. simpl.
  unfold raise_for_status. rewrite bool_decide_false by done. simpl.
  by rewrite Hd.
Qed.


Lemma loop_body_count e i loc n w n' w' :
  loop_body e i loc n w = (Returned n', w') →
  n' = (if produces_record e i loc then 1 else 0) + n.
Proof.
  rewrite loop_body_run. unfold produces_record.
  destruct (fetched _ _) as [v|ex]; [|done].
  destruct (truthy v); [|by intros [= <- _]].
  destruct (normalize _ _ _); [|done]. by intros [= <- _].
Qed.

Lemma loop_body_trace e i loc n w n' w' :
  loop_body e i loc n w = (Returned n', w') →
  ∃ stores,
    trace w' = trace w ++ [EvGet (request_for loc); EvSleep 0.1] ++ stores ∧
    Forall (λ ev, is_to_sql ev = true) stores ∧
    length stores = (if produces_record e i loc then 1 else 0).
Proof.
  rewrite loop_body_run. unfold produces_record, slept.
  destruct (fetched _ _) as [v|ex]; [|done].
  destruct (truthy v).
  - destruct (normalize _ _ _) as [df|] eqn:En; [|done]. intros [= _ <-].
    rewrite store_weather_data_trace by eauto using normalize_not_empty.
    simpl. rewrite fetch_output_trace. eexists [_]. simpl.
    rewrite <-!app_assoc. simpl. split; [done|]. split; [|done].
    by apply Forall_singleton.
  - intros [= _ <-]. simpl. rewrite fetch_output_trace. exists [].
    rewrite <-!app_assoc. by simpl.
Qed.

Lemma loop_body_conn e i loc n w r w' :
  loop_body e i loc n w = (r, w') → conn w' = conn w.
Proof.
  rewrite loop_body_run. unfold slept.
  destruct (fetched _ _) as [v|ex]; [|by intros [= _ <-]].
  destruct (truthy v); [|by intros [= _ <-]].
  destruct (normalize _ _ _) as [df|]; [|by intros [= _ <-]].
  intros [= _ <-]. by rewrite store_weather_data_conn.
Qed.


End loop_facts.

Lemma pacing_app tr1 tr2 : pacing (tr1 ++ tr2) = pacing tr1 ++ pacing tr2.
Proof. apply filter_app. Qed.

Lemma pacing_to_sql stores :
  Forall (λ ev, is_to_sql ev = true) stores → pacing stores = [].
Proof.
  induction 1 as [|ev stores Hev _ IH]; [done|].
  by destruct ev.
Qed.

Lemma filter_to_sql_all stores :
  Forall (λ ev, is_to_sql ev = true) stores → filter is_to_sql stores = stores.
Proof.
  induction 1 as [|ev stores Hev _ IH]; [done|].
  rewrite filter_cons_True by by rewrite Hev. by rewrite IH.
Qed.

Section pass_facts.
Context `{Pandas}.

Lemma for_loc_app e l1 : ∀ l2 i n w,
  for_loc e i (l1 ++ l2) n w =
    match for_loc e i l1 n w with
    | (Returned n1, w1) => for_loc e (i + length l1) l2 n1 w1
    | (Raised ex, w1) => (Raised ex, w1)
    end.
Proof.
  induction l1 as [|loc l1 IH]; intros l2 i n w; simpl.
  - unfold mret, M_ret. by rewrite Nat.add_0_r.
  - unfold mbind, M_bind. destruct (loop_body e i loc n w) as [[n1|ex] w1]; [|done].
    rewrite IH. by rewrite Nat.add_succ_comm.
Qed.

(** Once a turn raises, the loop is over: the locations after it play no
    part in the run. *)
Lemma for_loc_raises e pre loc rest i n w n1 w1 ex w2 :
  for_loc e i pre n w = (Returned n1, w1) →
  loop_body e (i + length pre) loc n1 w1 = (Raised ex, w2) →
  for_loc e i (pre ++ loc :: rest) n w = (Raised ex, w2).
Proof.
  intros Hpre Hbody. rewrite for_loc_app, Hpre. simpl.
  unfold mbind, M_bind. by rewrite Hbody.
Qed.

Lemma for_loc_returned e locs : ∀ i n w n' w',
  for_loc e i locs n w = (Returned n', w') →
  n' = n + records_produced e i locs ∧
  pacing (trace w') = pacing (trace w) ++ request_then_pause locs ∧
  length (filter is_to_sql (trace w')) =
    length (filter is_to_sql (trace w)) + records_produced e i locs ∧
  conn w' = conn w.
Proof.
  induction locs as [|loc rest IH]; intros i n w n' w'; simpl.
  - intros [= <- <-]. unfold request_then_pause. simpl.
    by rewrite !Nat.add_0_r, app_nil_r.
  - unfold mbind, M_bind.
    destruct (loop_body e i loc n w) as [[n1|ex] w1] eqn:Eb; [|done].
    intros (-> & Hp & Hs & Hc)%IH.
    pose proof (loop_body_count _ _ _ _ _ _ _ Eb) as ->.
    pose proof (loop_body_conn _ _ _ _ _ _ _ Eb) as Hc1.
    destruct (loop_body_trace _ _ _ _ _ _ _ Eb) as (stores & Ht & Hst & Hlen).
    rewrite Ht in Hp, Hs. split; [lia|]. split; [|split; [|congruence]].
    + rewrite Hp, !pacing_app, (pacing_to_sql _ Hst), app_nil_r.
      unfold request_then_pause. simpl. by rewrite <-app_assoc.
    + rewrite Hs, !filter_app, (filter_to_sql_all _ Hst), !length_app, Hlen.
      simpl. lia.
Qed.





End pass_facts.

(** ** [create_weather_table] and [main] *)

Lemma create_weather_table_run fault w :
  create_weather_table fault w =
    let called := add_event EvExecuteCreate w in
    match fault with
    | None => (Returned (), add_log LogTableProcessed (created called))
    | Some ex =>
        if is_sqlite3_Error ex
        then (Returned (), add_log (LogCreateError ex) called)
        else (Raised ex, called)
    end.
Proof.
  unfold create_weather_table, try_except, execute_create, mbind, M_bind, emit.
  simpl. destruct fault as [ex|]; simpl.
  - unfold raise. by destruct (is_sqlite3_Error ex).
  - unfold get_db, created. simpl. by destruct (db w).
Qed.

Section main_facts.
Context `{Pandas}.

Lemma main_try_run locs e w :
  main_try locs e w =
    match sqlite3_connect e with
    | Some ex => (Raised ex, add_event (EvConnect DB_FILE) w)
    | None =>
        match create_weather_table (execute_fault e)
                (with_conn (Some Open) (add_event (EvConnect DB_FILE) w)) with
        | (Raised ex, w2) => (Raised ex, w2)
        | (Returned _, w2) =>
            match for_loc e 0 locs 0 w2 with
            | (Returned n, w3) => (Returned (), add_log (LogFinished n) w3)
            | (Raised ex, w3) => (Raised ex, w3)
            end
        end
    end.
Proof.
  unfold main_try, connect, mbind at 1, M_bind at 1, mbind at 1, M_bind at 1, emit.
  destruct (sqlite3_connect e) as [ex|]; [done|]. unfold set_conn.
  unfold mbind at 1, M_bind at 1.
  destruct (create_weather_table _ _) as [[[]|ex] w2]; [|done].
  unfold mbind, M_bind. by destruct (for_loc _ _ _ _ _) as [[n|ex] w3].
Qed.

Lemma main_over_run locs e w :
  main_over locs e w =
    (Returned (),
     released
       match main_try locs e (started w) with
       | (Returned _, w1) => w1
       | (Raised ex, w1) => add_log (LogMainError ex) w1
       end).
Proof.
  unfold main_over, try_finally, try_except, mbind, M_bind, print, set_conn,
    get_conn, close, emit, released. fold (started w).
  destruct (main_try locs e (started w)) as [[[]|ex] w1]; simpl.
  - by destruct (conn w1).
  - by destruct (conn w1).
Qed.

End main_facts.

Lemma create_weather_table_trace fault w :
  trace (final (create_weather_table fault w)) = trace w ++ [EvExecuteCreate].
Proof.
  rewrite create_weather_table_run. simpl. destruct fault as [ex|].
  - by destruct (is_sqlite3_Error ex).
  - unfold created. simpl. by destruct (db w).
Qed.

Lemma create_weather_table_conn fault w :
  conn (final (create_weather_table fault w)) = conn w.
Proof.
  rewrite create_weather_table_run. simpl. destruct fault as [ex|].
  - by destruct (is_sqlite3_Error ex).
  - unfold created. simpl. by destruct (db w).
Qed.

Lemma request_then_pause_sleeps locs :
  filter is_sleep (request_then_pause locs) = replicate (length locs) (EvSleep 0.1).
Proof.
  unfold request_then_pause. induction locs as [|loc rest IH]; [done|].
  simpl. by rewrite <-IH.
Qed.

Lemma request_then_pause_last locs :
  locs ≠ [] → ∃ l, request_then_pause locs = l ++ [EvSleep 0.1].
Proof.
  intros Hne. induction locs as [|loc init _] using rev_ind; [done|].
  exists (request_then_pause init ++ [EvGet (request_for loc)]).
  unfold request_then_pause. rewrite bind_app. simpl. by rewrite <-app_assoc.
Qed.

Section main_returned.
Context `{Pandas}.

(** A [try] block that returns went through the whole loop. *)
Lemma main_try_returned locs e w w' :
  main_try locs e w = (Returned (), w') →
  ∃ n w3,
    sqlite3_connect e = None ∧
    for_loc e 0 locs 0
      (final (create_weather_table (execute_fault e)
                (with_conn (Some Open) (add_event (EvConnect DB_FILE) w))))
      = (Returned n, w3) ∧
    w' = add_log (LogFinished n) w3.
Proof.
  rewrite main_try_run. destruct (sqlite3_connect e); [done|].
  destruct (create_weather_table _ _) as [[[]|ex] w2]; [|done]. unfold final. simpl.
  destruct (for_loc _ _ _ _ _) as [[n|ex] w3]; [|done].
  intros [= <-]. by exists n, w3.
Qed.

End main_returned.

(** ** The pass *)

Section pass_theorems.
Context `{Pandas}.


(** C8 (as amended).  The driver pauses for the fixed tenth of a second
    right after every fetch that returns: the requests and pauses of a
    completed pass are, in the order of the registry, one request then one
    pause for each location.  A pass over N locations has N pauses, the
    last of them after the final fetch. *)
Theorem pause_follows_every_fetch locs e w w' :
  main_try locs e w = (Returned (), w') →
  pacing (trace w') = pacing (trace w) ++ request_then_pause locs ∧
  filter is_sleep (request_then_pause locs) = replicate (length locs) (EvSleep 0.1) ∧
  (locs ≠ [] → last (pacing (trace w')) = Some (EvSleep 0.1)).
Proof.
  intros Hrun.
  destruct (main_try_returned _ _ _ _ Hrun) as (n & w3 & _ & Hloop & ->).
  apply for_loc_returned in Hloop as (_ & Hp & _).
  rewrite create_weather_table_trace in Hp. simpl in Hp.
  rewrite !pacing_app, !app_nil_r in Hp.
  split; [done|]. split; [apply request_then_pause_sleeps|].
  intros Hne. simpl. rewrite Hp.
  destruct (request_then_pause_last locs Hne) as [l ->].
  by rewrite app_assoc, last_snoc.
Qed.

End pass_theorems.



(** C8 on a registry of two that both answer. *)
Lemma pause_follows_every_fetch_witness :
  let e := Mock.env (Mock.always (Mock.ok Mock.sunny)) Mock.noon in
  let locs := [Mock.paris; Mock.tokyo] in
  let r := main_try locs e new_world in
  r = (Returned (), final r) ∧
  filter is_sleep (request_then_pause locs) = [EvSleep 0.1; EvSleep 0.1] ∧
  last (pacing (trace (final r))) = Some (EvSleep 0.1).
Proof.
  intros e locs r.
  assert (r = (Returned (), final r)) as Hr by (vm_compute; reflexivity).
  split; [exact Hr|].
  destruct (pause_follows_every_fetch locs e new_world (final r) Hr) as (_ & Hs & Hl).
  split; [exact Hs|]. apply Hl. discriminate.
Defined.

(** C8, where it fails: over the fifteen locations of the registry, all
    answering, the pass pauses fifteen times, not fourteen. *)
Lemma fifteen_pauses_for_fifteen_locations :
  let e := Mock.env (Mock.always (Mock.ok Mock.sunny)) Mock.noon in
  ¬ (length (filter is_sleep (trace (final (main e new_world))))
     = length LOCATIONS - 1).
Proof. vm_compute. discriminate. Qed.

Section release.
Context `{Pandas}.

Lemma released_conn w : conn (released w) ≠ Some Open.
Proof. unfold released. destruct (conn w) eqn:E; simpl; [done|by rewrite E]. Qed.

Lemma for_loc_conn e locs : ∀ i n w r w',
  for_loc e i locs n w = (r, w') → conn w' = conn w.
Proof.
  induction locs as [|loc rest IH]; intros i n w r w'; simpl.
  - by intros [= _ <-].
  - unfold mbind, M_bind.
    destruct (loop_body e i loc n w) as [[n1|ex] w1] eqn:Eb.
    + intros Hr. rewrite (IH _ _ _ _ _ Hr). by eapply loop_body_conn.
    + intros [= _ <-]. by eapply loop_body_conn.
Qed.

Lemma main_try_conn locs e w r w' :
  main_try locs e w = (r, w') →
  conn w' = match sqlite3_connect e with
            | None => Some Open
            | Some _ => conn w
            end.
Proof.
  rewrite main_try_run. destruct (sqlite3_connect e); [by intros [= _ <-]|].
  pose proof (create_weather_table_conn (execute_fault e)
                (with_conn (Some Open) (add_event (EvConnect DB_FILE) w))) as Hc.
  destruct (create_weather_table _ _) as [[[]|ex] w2]; unfold final in Hc; simpl in Hc.
  - destruct (for_loc _ _ _ _ _) as [[n|ex] w3] eqn:El;
      apply for_loc_conn in El; intros [= _ <-]; simpl; congruence.
  - by intros [= _ <-].
Qed.

(** C9.  [main] never lets an exception out and never leaves the
    connection open: when [sqlite3.connect] went through, the connection
    is closed at the end, the closing being the last call made and the
    last line printed.  When the [try] block raises, the error is logged
    on top of the world in which it was raised and the connection is
    released from there.  A turn of the loop that raises ends the loop in
    the world that turn left: no later location is fetched or stored. *)
Theorem main_releases_connection locs e w :
  ∃ w',
    main_over locs e w = (Returned (), w') ∧
    conn w' ≠ Some Open ∧
    (sqlite3_connect e = None →
       conn w' = Some Closed ∧
       last (trace w') = Some EvClose ∧
       last (stdout w') = Some LogClosed) ∧
    (∀ ex w1,
       main_try locs e (started w) = (Raised ex, w1) →
       w' = released (add_log (LogMainError ex) w1)) ∧
    (∀ pre loc rest u n1 u1 ex u2,
       locs = pre ++ loc :: rest →
       for_loc e 0 pre 0 u = (Returned n1, u1) →
       loop_body e (length pre) loc n1 u1 = (Raised ex, u2) →
       for_loc e 0 locs 0 u = (Raised ex, u2)).
Proof.
  eexists. split; [apply main_over_run|].
  destruct (main_try locs e (started w)) as [r w1] eqn:Et.
  pose proof (main_try_conn _ _ _ _ _ Et) as Hc.
  split; [apply released_conn|]. split; [|split].
  - intros Hok. rewrite Hok in Hc. unfold released.
    destruct r as [[]|ex]; simpl; by rewrite Hc; simpl; rewrite !last_snoc.
  - by intros ex w1' [= -> ->].
  - intros pre loc rest u n1 u1 ex u2 -> Hpre Hbody.
    by apply (for_loc_raises e pre loc rest 0 0 u n1 u1 ex u2).
Qed.

End release.

(** C9 on a registry of two: the body of the first answer is the number
    5, the fetch raises, Tokyo is never asked for, and the connection is
    closed all the same. *)
Lemma main_releases_connection_witness :
  let e := Mock.env Mock.scalar_then_up Mock.noon in
  let locs := [Mock.paris; Mock.tokyo] in
  let r := main_try locs e (started new_world) in
  result r = Raised (TypeError "argument is not iterable") ∧
  final (main_over locs e new_world) =
    released (add_log (LogMainError (TypeError "argument is not iterable")) (final r)) ∧
  conn (final (main_over locs e new_world)) = Some Closed ∧
  filter is_get (trace (final (main_over locs e new_world))) =
    [EvGet (request_for Mock.paris)].
Proof.
  intros e locs r.
  destruct (main_releases_connection locs e new_world)
    as (w' & Hrun & _ & Hclosed & Hraised & _).
  rewrite Hrun. unfold final at 1 2 3. simpl.
  split; [vm_compute; reflexivity|]. split; [|split].
  - apply Hraised. vm_compute. reflexivity.
  - apply Hclosed. reflexivity.
  - rewrite (Hraised (TypeError "argument is not iterable") (final r)).
    + vm_compute. reflexivity.
    + vm_compute. reflexivity.
Defined.

(** ** The schema *)

Lemma create_weather_table_db w :
  db (final (create_weather_table None w)) = db (created w).
Proof.
  rewrite create_weather_table_run. unfold final, created. simpl.
  by destruct (db w).
Qed.

Lemma created_db w :
  db (created w) =
    Some (default {| declared_schema := true; rows := [] |} (db w)).
Proof. unfold created. by destruct (db w) eqn:E. Qed.





(** ** Failed inserts *)

Lemma insert_rows_error rs : ∀ t ex,
  insert_rows t rs = inl ex → ∃ msg, ex = IntegrityError msg.
Proof.
  induction rs as [|r rs IH]; intros t ex; simpl; [done|].
  destruct (insert_row t r) as [ex'|t'] eqn:E; [|by apply IH].
  intros [= <-]. unfold insert_row in E.
  repeat case_match; try done; injection E as <-; by eexists.
Qed.

Section failed_inserts.
Context `{Pandas}.

Lemma store_weather_data_db fault (df : DataFrame) w :
  df ≠ [] →
  db (final (store_weather_data fault df w)) =
    match fault with
    | Some _ => db w
    | None =>
        match insert_rows (target_table w) (to_record <$> df) with
        | inl _ => db w
        | inr t' => Some t'
        end
    end.
Proof.
  intros Hne. rewrite store_weather_data_run by done. unfold final. simpl.
  destruct fault as [ex|]; [by rewrite after_store_error_db|].
  destruct (insert_rows (target_table w) _) as [ex|]; [|done].
  by rewrite after_store_error_db.
Qed.

(** C2 (as amended).  When the insert of a frame fails, be it that the
    storage layer fails with [ex] or that sqlite refuses a row with [ex],
    [store_weather_data] returns all the same and the table is as it was.
    An IntegrityError is discarded without a line of output; a refused
    row always is one, whether it repeats a primary key or has a null in
    a NOT NULL column.  Any other [sqlite3.Error] is printed, and so is
    any other exception, together with the records. *)
Theorem failed_insert_is_dropped fault (df : DataFrame) w ex :
  df ≠ [] →
  fault = Some ex ∨
    (fault = None ∧ insert_rows (target_table w) (to_record <$> df) = inl ex) →
  let called := add_event (EvToSql (to_record <$> df)) w in
  store_weather_data fault df w =
    (Returned (),
     match ex with
     | IntegrityError _ => called
     | SqliteError _ => add_log (LogStoreError ex) called
     | _ => add_log (LogStoreUnexpected ex (to_record <$> df)) called
     end) ∧
  db (final (store_weather_data fault df w)) = db w ∧
  (fault = None → ∃ msg, ex = IntegrityError msg).
Proof.
  intros Hne Hex called. rewrite store_weather_data_db by done.
  rewrite store_weather_data_run by done. simpl. fold called.
  destruct Hex as [->|[-> Hi]].
  - split; [by destruct ex|]. by split.
  - rewrite Hi. split; [by destruct ex|]. split; [done|].
    intros _. by eapply insert_rows_error.
Qed.

End failed_inserts.

(** C2 for a locked database. *)
Lemma failed_insert_is_dropped_witness :
  let ex := SqliteError "database is locked" in
  let row := Mock.paris_row (Some Mock.noon) in
  let w := created new_world in
  stdout (final (store_weather_data (Some ex) [row] w)) = [LogStoreError ex] ∧
  db (final (store_weather_data (Some ex) [row] w)) = db w.
Proof.
  intros ex row w.
  destruct (@failed_insert_is_dropped Iso.pandas (Some ex) [row] w ex)
    as (Hrun & Hdb & _); [discriminate|by left|].
  split; [|exact Hdb]. by rewrite Hrun.
Defined.

(** C2, where it fails: the insert of a record with a null timestamp
    into the empty declared table is refused for the NOT NULL constraint,
    not for a conflict of keys, and yet nothing is printed. *)
Lemma null_timestamp_refusal_is_not_logged :
  let row := Mock.paris_row None in
  let w := created new_world in
  ¬ ((∃ ex, insert_rows (target_table w) [to_record row] = inl ex) →
     primary_key (to_record row) ∉ primary_key <$> rows (target_table w) →
     stdout (final (store_weather_data None [row] w)) ≠ stdout w).
Proof.
  intros row w Hc. apply Hc.
  - by eexists.
  - simpl. apply not_elem_of_nil.
  - reflexivity.
Qed.

(** ** The table through a pass *)

Section table_facts.
Context `{Pandas}.

Lemma loop_body_db e i loc n w r w' :
  loop_body e i loc n w = (r, w') →
  db w' = db w ∨
  ∃ v df t',
    fetched (requests_get e i) loc = Returned v ∧ truthy v = true ∧
    normalize v loc (datetime_now e i) = Returned df ∧
    to_sql_fault e i = None ∧
    insert_rows (target_table w) (to_record <$> df) = inr t' ∧
    db w' = Some t'.
Proof.
  rewrite loop_body_run.
  destruct (fetched _ _) as [v|ex] eqn:Ef; [|intros [= _ <-]; by left].
  destruct (truthy v) eqn:Ev; [|intros [= _ <-]; by left].
  destruct (normalize _ _ _) as [df|ex] eqn:En; [|intros [= _ <-]; by left].
  intros [= _ <-]. rewrite store_weather_data_db by eauto using normalize_not_empty.
  destruct (to_sql_fault e i); [by left|].
  change (target_table (slept e i loc w)) with (target_table w).
  destruct (insert_rows _ _) as [ex|t'] eqn:Ei; [by left|].
  right. by exists v, df, t'.
Qed.



Lemma released_db w : db (released w) = db w.
Proof. unfold released. by destruct (conn w). Qed.



End table_facts.

Section count_facts.
Context `{Pandas}.

Lemma stored_rows_target w : stored_rows w = rows (target_table w).
Proof. unfold stored_rows, target_table. by destruct (db w). Qed.

Lemma loop_body_rows e i loc n w r w' :
  loop_body e i loc n w = (r, w') →
  length (stored_rows w') ≤
    length (stored_rows w) + (if produces_record e i loc then 1 else 0).
Proof.
  intros Hb.
  destruct (loop_body_db _ _ _ _ _ _ _ Hb)
    as [Hdb|(v & df & t' & Hf & Hv & Hn & _ & Hi & Hdb)].
  - unfold stored_rows. rewrite Hdb. lia.
  - unfold produces_record. rewrite Hf, Hv.
    apply insert_rows_inv in Hi as [_ Hr].
    apply normalize_inv in Hn as (?&?&?&?&?&?&?&_&_&_&_&_&_&_&->).
    rewrite (stored_rows_target w). unfold stored_rows. rewrite Hdb, Hr, length_app.
    simpl. lia.
Qed.

Lemma for_loc_rows e locs : ∀ i n w r w',
  for_loc e i locs n w = (r, w') →
  length (stored_rows w') ≤ length (stored_rows w) + records_produced e i locs.
Proof.
  induction locs as [|loc rest IH]; intros i n w r w'; simpl.
  - intros [= _ <-]. lia.
  - unfold mbind, M_bind.
    destruct (loop_body e i loc n w) as [[n1|ex] w1] eqn:Eb; intros Hr;
      apply loop_body_rows in Eb.
    + apply IH in Hr. lia.
    + injection Hr as _ <-. lia.
Qed.

(** C6.  When the [try] block of [main] runs to its end, the last line
    it prints is the summary, and the count in it is the number of
    locations for which a record was produced, that is, whose fetch
    handed back something truthy.  That is also the number of calls made
    to the storage layer, and the table grew by at most that many rows.
    A turn whose payload normalizes counts one more whatever the storage
    layer then does with the record. *)
Theorem summary_counts_records_produced locs e w w' :
  main_try locs e w = (Returned (), w') →
  last (stdout w') = Some (LogFinished (records_produced e 0 locs)) ∧
  length (filter is_to_sql (trace w')) =
    length (filter is_to_sql (trace w)) + records_produced e 0 locs ∧
  length (stored_rows w') ≤ length (stored_rows w) + records_produced e 0 locs ∧
  (∀ i loc n u v df,
     fetched (requests_get e i) loc = Returned v → truthy v = true →
     normalize v loc (datetime_now e i) = Returned df →
     ∃ u', loop_body e i loc n u = (Returned (S n), u')).
Proof.
  intros Hrun.
  destruct (main_try_returned _ _ _ _ Hrun) as (n & w3 & _ & Hloop & ->).
  pose proof (for_loc_rows _ _ _ _ _ _ _ Hloop) as Hrows.
  apply for_loc_returned in Hloop as (-> & _ & Hs & _).
  rewrite create_weather_table_trace in Hs.
  split; [by simpl; rewrite last_snoc|]. split; [|split].
  - simpl in *. rewrite !filter_app, !length_app in Hs. simpl in Hs. lia.
  - etrans; [exact Hrows|]. apply Nat.add_le_mono_r.
    rewrite create_weather_table_run. unfold stored_rows, final. simpl.
    destruct (execute_fault e) as [ex|]; simpl.
    + by destruct (is_sqlite3_Error ex).
    + rewrite created_db. simpl. by destruct (db w).
  - intros i loc m u v df Hf Hv Hn. rewrite loop_body_run, Hf, Hv, Hn. by eexists.
Qed.


End count_facts.

(** C6 on a registry of one whose time does not parse: one record is
    produced and counted, none is stored. *)
Lemma summary_counts_records_produced_witness :
  let e := Mock.env (Mock.always (Mock.ok Mock.garbled_time)) Mock.noon in
  let r := main_try [Mock.paris] e new_world in
  r = (Returned (), final r) ∧
  last (stdout (final r)) = Some (LogFinished 1) ∧
  length (filter is_to_sql (trace (final r))) = 1 ∧
  stored_rows (final r) = [].
Proof.
  intros e r.
  assert (r = (Returned (), final r)) as Hr by (vm_compute; reflexivity).
  split; [exact Hr|].
  destruct (summary_counts_records_produced [Mock.paris] e new_world (final r) Hr)
    as (Hlast & Hcalls & _ & _).
  split; [exact Hlast|]. split; [exact Hcalls|]. vm_compute. reflexivity.
Defined.


(** ** Running the pipeline again *)

Section replay.
Context `{Pandas}.
Variables e1 e2 : environment.
Hypothesis same_answers : ∀ i r, requests_get e2 i r = requests_get e1 i r.
Hypothesis no_fault : ∀ i, to_sql_fault e1 i = None.





End replay.

Section twice.
Context `{Pandas}.




End twice.


(** * Further properties of the code *)

(** ** [fetch_current_weather] *)

Ltac fetch_cases get loc :=
  unfold fetched, fetch_output, result, final, fetch_current_weather, try_except,
    do_get, mbind, M_bind, emit; simpl;
  fold (request_for loc);
  destruct (get (request_for loc)) as [?msg|?code ?text ?body] eqn:?Eget; simpl;
  [|unfold raise_for_status; case_bool_decide; simpl;
    [|destruct body as [[| | | | |?l|?d]|]; simpl]].

Lemma fetch_output_stdout get loc :
  stdout (fetch_output get loc) = [] ∨
  ∃ l, stdout (fetch_output get loc) = [l] ∧ fetched get loc = Returned PNone.
Proof.
  fetch_cases get loc; try (by left); try (by right; eexists).
  - destruct (bool_decide _); simpl; [by left|by right; eexists].
  - destruct (existsb _ l); simpl; [by left|by right; eexists].
  - destruct (d !! "current_weather"); simpl; [by left|by right; eexists].
Qed.

(** X1.  Whatever the answer, and also when it raises, a call of
    [fetch_current_weather] sends exactly one request, to the base URL
    with the latitude, longitude and timezone it was given,
    [current_weather] set and a timeout of 15; it leaves the database and
    the connection alone; it prints at most one line, and when it prints
    one it returns None. *)
Theorem fetch_current_weather_footprint get loc w :
  let run := fetch_current_weather get
               (loc_latitude loc) (loc_longitude loc) (loc_timezone loc) w in
  trace (final run) =
    trace w ++ [EvGet {| req_url := API_BASE_URL;
                         req_latitude := loc_latitude loc;
                         req_longitude := loc_longitude loc;
                         req_current_weather := true;
                         req_timezone := loc_timezone loc;
                         req_timeout := 15 |}] ∧
  db (final run) = db w ∧ conn (final run) = conn w ∧
  (stdout (final run) = stdout w ∨
   ∃ l, stdout (final run) = stdout w ++ [l] ∧ result run = Returned PNone).
Proof.
  intros run. unfold run. rewrite fetch_current_weather_run. unfold final, result.
  simpl. rewrite fetch_output_trace. split; [done|]. split; [done|]. split; [done|].
  destruct (fetch_output_stdout get loc) as [->|(l & -> & ->)].
  - left. by rewrite app_nil_r.
  - right. by exists l.
Qed.

(** X2.  [fetch_current_weather] raises exactly when the status is not an
    error status and the body decodes to something the lookup of
    [current_weather] breaks on: a scalar (null, a boolean, a number), a
    list that has the string ["current_weather"] among its elements, or a
    string that contains it.  What it raises then is a TypeError. *)
Theorem fetch_current_weather_raises_iff get loc :
  ((∃ ex, fetched get loc = Raised ex) ↔
   ∃ status_code text data,
     get (request_for loc) = Response status_code text (Some data) ∧
     ¬ (400 ≤ status_code < 600)%Z ∧
     body_breaks_fetch data = true) ∧
  (∀ ex, fetched get loc = Raised ex → ∃ msg, ex = TypeError msg).
Proof.
  split.
  - split.
    + intros [ex Hex]. revert Hex. fetch_cases get loc; try done;
        try (intros _; eexists _, _, _; by split; [done|split]).
      * destruct (bool_decide _) eqn:Eb; simpl; [|done].
        intros _. eexists _, _, (PStr _). split; [done|]. by split.
      * destruct (existsb _ l) eqn:Eb; simpl; [|done].
        intros _. eexists _, _, (PList _). split; [done|]. by split.
      * by destruct (d !! "current_weather").
    + intros (status_code & text & data & Hget & Hs & Hb).
      unfold fetched, result, fetch_current_weather, try_except, do_get,
        mbind, M_bind, emit; simpl.
      fold (request_for loc). rewrite Hget. simpl.
      unfold raise_for_status. rewrite bool_decide_false by done. simpl.
      destruct data; simpl in *; try done; try (by eexists);
        rewrite Hb; by eexists.
  - intros ex. fetch_cases get loc; try done; try (intros [= <-]; by eexists).
    + destruct (bool_decide _); simpl; [|done]. intros [= <-]. by eexists.
    + destruct (existsb _ l); simpl; [|done]. intros [= <-]. by eexists.
    + by destruct (d !! "current_weather").
Qed.

(** X3.  What [fetch_current_weather] returns is None or the value stored
    under [current_weather]: a returned value other than None is the
    content of that key in a body that decoded to an object, on a
    response whose status is not an error status. *)
Theorem fetch_current_weather_returns_content get loc v :
  fetched get loc = Returned v → v ≠ PNone →
  ∃ status_code text d,
    get (request_for loc) = Response status_code text (Some (PDict d)) ∧
    ¬ (400 ≤ status_code < 600)%Z ∧
    d !! "current_weather" = Some v.
Proof.
  fetch_cases get loc; try (by intros [= <-]).
  - by destruct (bool_decide _); simpl; intros [= <-].
  - by destruct (existsb _ l); simpl; intros [= <-].
  - destruct (d !! "current_weather") as [v'|] eqn:Ed; simpl; intros [= <-]; [|done].
    intros _. by eexists _, _, _.
Qed.

(** X3 on a 200 that carries an observation. *)
Lemma fetch_current_weather_returns_content_witness :
  let get := Mock.always (Mock.ok Mock.sunny) 0 in
  ∃ d, get (request_for Mock.paris) = Response 200 "" (Some (PDict d)) ∧
       d !! "current_weather" = Some Mock.sunny.
Proof.
  intros get.
  destruct (fetch_current_weather_returns_content get Mock.paris Mock.sunny)
    as (code & text & d & Hget & _ & Hd); [reflexivity|discriminate|].
  exists d. split; [|exact Hd].
  rewrite Hget. injection Hget as <- <- _. reflexivity.
Defined.

(** X2 on a 200 whose body is the number 5. *)
Lemma fetch_current_weather_raises_iff_witness :
  let get := Mock.scalar_then_up 0 in
  ∃ ex, fetched get Mock.paris = Raised ex.
Proof.
  intros get.
  apply (proj1 (fetch_current_weather_raises_iff get Mock.paris)).
  exists 200%Z, "5", (PInt 5). split; [reflexivity|]. split; [lia|reflexivity].
Defined.

(** ** The normalizing lines of [main] *)

Section normalize_more.
Context `{Pandas}.

Lemma to_datetime_returns time :
  (∃ ts, to_datetime time = Returned ts) ↔ ∀ b, time ≠ PBool b.
Proof.
  destruct time; simpl; split; try (by eexists); try done.
  - intros [ts Hts]. done.
  - intros Hb. by destruct (Hb b).
Qed.



(** X5.  A payload object that lacks some of the four fields makes the
    normalizing lines raise a KeyError naming the first one missing, in
    the order time, temperature, windspeed, weathercode (provided the
    time, if there, is not a boolean, which is refused before the next
    field is looked up). *)
Theorem normalize_names_first_missing_field d loc now k :
  (∀ b, d !! "time" ≠ Some (PBool b)) →
  head (filter (λ f, ¬ is_Some (d !! f)) measured_fields) = Some k →
  normalize (PDict d) loc now = Raised (KeyError k).
Proof.
  intros Hb Hk.
  unfold normalize, df_column, py_setitem_target, mbind, outcome_bind, mret, outcome_ret.
  unfold measured_fields in Hk.
  destruct (d !! "time") as [time|] eqn:Et.
  2:{ rewrite filter_cons_True in Hk by (rewrite Et; apply is_Some_None).
      by injection Hk as <-. }
  rewrite filter_cons_False in Hk by (rewrite Et; intros Hn; by apply Hn).
  destruct (proj2 (to_datetime_returns time)) as [ts ->].
  { intros b ->. by apply (Hb b). }
  destruct (d !! "temperature") as [te|] eqn:Ete.
  2:{ rewrite filter_cons_True in Hk by (rewrite Ete; apply is_Some_None).
      by injection Hk as <-. }
  rewrite filter_cons_False in Hk by (rewrite Ete; intros Hn; by apply Hn).
  destruct (d !! "windspeed") as [wi|] eqn:Ewi.
  2:{ rewrite filter_cons_True in Hk by (rewrite Ewi; apply is_Some_None).
      by injection Hk as <-. }
  rewrite filter_cons_False in Hk by (rewrite Ewi; intros Hn; by apply Hn).
  destruct (d !! "weathercode") as [wc|] eqn:Ewc.
  2:{ rewrite filter_cons_True in Hk by (rewrite Ewc; apply is_Some_None).
      by injection Hk as <-. }
  rewrite filter_cons_False in Hk by (rewrite Ewc; intros Hn; by apply Hn).
  done.
Qed.

(** X6.  The normalizing lines read the payload under the four measured
    fields only: two payload objects that agree on them give the same
    frame or the same exception.  Whatever else the API sends, also
    under the names of columns of the table, is ignored. *)
Theorem normalize_reads_measured_fields_only d d' loc now :
  (∀ f, f ∈ measured_fields → d !! f = d' !! f) →
  normalize (PDict d) loc now = normalize (PDict d') loc now.
Proof.
  intros Hsame.
  unfold normalize, df_column, py_setitem_target, mbind, outcome_bind, mret, outcome_ret.
  rewrite <-!Hsame; [done|unfold measured_fields; set_solver..].
Qed.

(** X7.  The one record made from a payload carries the labels of the
    location and the reading of the clock, none of them null: latitude,
    longitude, timezone, continent and city are those of the registry
    entry, and the ingestion time is the clock formatted to the
    microsecond.  Only the timestamp and the three measurements can be
    null. *)
Theorem normalized_record_is_labelled v loc now df :
  normalize v loc now = Returned df →
  ∃ r, to_record <$> df = [r] ∧
    latitude r = Some (loc_latitude loc) ∧
    longitude r = Some (loc_longitude loc) ∧
    timezone r = Some (loc_timezone loc) ∧
    continent r = Some (loc_continent loc) ∧
    city r = Some (loc_city loc) ∧
    ingestion_timestamp r = Some (strftime "%Y-%m-%dT%H:%M:%S.%f" now).
Proof.
  intros Hn. apply normalize_inv in Hn as (?&?&?&?&?&?&?&_&_&_&_&_&_&_&->).
  by eexists.
Qed.

End normalize_more.


(** X5 on a payload without its time. *)
Lemma normalize_names_first_missing_field_witness :
  @normalize Iso.pandas Mock.timeless Mock.paris Mock.noon = Raised (KeyError "time").
Proof.
  apply (@normalize_names_first_missing_field Iso.pandas).
  - intros b Hb. vm_compute in Hb. discriminate.
  - vm_compute. reflexivity.
Defined.

(** X6: a payload that also sends a latitude of its own. *)
Lemma normalize_reads_measured_fields_only_witness :
  let d : gmap string pyval :=
    list_to_map [("time", PStr "2024-01-01T12:00"); ("temperature", PInt 21);
                 ("windspeed", PInt 3); ("weathercode", PInt 1)] in
  @normalize Iso.pandas (PDict (<["latitude" := PInt 0]> d)) Mock.paris Mock.noon =
  @normalize Iso.pandas (PDict d) Mock.paris Mock.noon.
Proof.
  intros d. apply (@normalize_reads_measured_fields_only Iso.pandas).
  intros f Hf. unfold measured_fields in Hf.
  repeat (apply elem_of_cons in Hf as [->|Hf]; [reflexivity|]).
  by apply elem_of_nil in Hf.
Defined.

(** X7 on a full observation for Paris. *)
Lemma normalized_record_is_labelled_witness :
  ∃ df r, @normalize Iso.pandas Mock.sunny Mock.paris Mock.noon = Returned df ∧
    to_record <$> df = [r] ∧
    city r = Some "Paris" ∧
    ingestion_timestamp r = Some "2024-01-01T12:00:07.000250".
Proof.
  eassert (@normalize Iso.pandas Mock.sunny Mock.paris Mock.noon = Returned _) as Hdf
    by reflexivity.
  eexists.
  destruct (@normalized_record_is_labelled Iso.pandas _ _ _ _ Hdf)
    as (r & Hr & _ & _ & _ & _ & Hcity & Hing).
  exists r. split; [exact Hdf|]. split; [exact Hr|]. split; [exact Hcity|].
  rewrite Hing. reflexivity.
Defined.

(** ** The driver *)

Lemma extend_add_event ev w :
  extend w (add_event ev new_world) = add_event ev w.
Proof. unfold extend, add_event. simpl. by rewrite app_nil_r. Qed.

Lemma fetch_output_observation get loc status_code text d v :
  get (request_for loc) = Response status_code text (Some (PDict d)) →
  ¬ (400 ≤ status_code < 600)%Z →
  d !! "current_weather" = Some v →
  fetch_output get loc = add_event (EvGet (request_for loc)) new_world.
Proof.
  intros Hg Hs Hd.
  unfold fetch_output, final, fetch_current_weather, try_except, do_get,
    mbind, M_bind, emit. simpl. fold (request_for loc). rewrite Hg. simpl.
  unfold raise_for_status. rewrite bool_decide_false by done. simpl.
  by rewrite Hd.
Qed.

Lemma pacing_single_other ev tr :
  is_get ev = false → is_sleep ev = false → pacing (tr ++ [ev]) = pacing tr.
Proof.
  intros Hg Hs. rewrite pacing_app. unfold pacing at 2.
  rewrite filter_cons_False by (rewrite Hg, Hs; naive_solver).
  by rewrite app_nil_r.
Qed.

Section driver_more.
Context `{Pandas}.

(** X8.  A [current_weather] that is there but falsy (an empty object,
    null, zero, an empty string or list, false) is treated like a failed
    fetch although nothing failed and the fetch printed nothing: the turn
    sends its request, pauses, prints the skip line and nothing else,
    calls the storage layer not at all and leaves the count as it is. *)
Theorem falsy_payload_is_skipped e i loc n w status_code text d v :
  requests_get e i (request_for loc) = Response status_code text (Some (PDict d)) →
  ¬ (400 ≤ status_code < 600)%Z →
  d !! "current_weather" = Some v →
  truthy v = false →
  loop_body e i loc n w =
    (Returned n,
     add_log (LogSkipping (loc_city loc))
       (add_event (EvSleep 0.1) (add_event (EvGet (request_for loc)) w))).
Proof.
  intros Hg Hs Hd Hv. rewrite loop_body_run.
  rewrite (fetched_observation _ _ _ _ _ _ Hg Hs Hd), Hv. unfold slept.
  by rewrite (fetch_output_observation _ _ _ _ _ _ Hg Hs Hd), extend_add_event.
Qed.

(** X9.  When [sqlite3.connect] raises, [main] prints the error and ends:
    no table is made, no request is sent, nothing is closed, and the
    connection variable is still None. *)
Theorem connect_failure_ends_run locs e w ex :
  sqlite3_connect e = Some ex →
  main_over locs e w =
    (Returned (),
     add_log (LogMainError ex) (add_event (EvConnect DB_FILE) (started w))).
Proof.
  intros Hc. by rewrite main_over_run, main_try_run, Hc.
Qed.

Lemma loop_body_keeps_rows e i loc n w r w' :
  loop_body e i loc n w = (r, w') → stored_rows w `prefix_of` stored_rows w'.
Proof.
  intros Hb.
  destruct (loop_body_db _ _ _ _ _ _ _ Hb)
    as [Hdb|(v & df & t' & _ & _ & _ & _ & Hi & Hdb)].
  - unfold stored_rows. by rewrite Hdb.
  - apply insert_rows_inv in Hi as [_ Hr].
    rewrite (stored_rows_target w). unfold stored_rows. rewrite Hdb, Hr.
    by apply prefix_app_r.
Qed.

Lemma for_loc_keeps_rows e locs : ∀ i n w r w',
  for_loc e i locs n w = (r, w') → stored_rows w `prefix_of` stored_rows w'.
Proof.
  induction locs as [|loc rest IH]; intros i n w r w'; simpl.
  - by intros [= _ <-].
  - unfold mbind, M_bind.
    destruct (loop_body e i loc n w) as [[n1|ex] w1] eqn:Eb.
    + intros Hr. etrans; [by eapply loop_body_keeps_rows|by eapply IH].
    + intros [= _ <-]. by eapply loop_body_keeps_rows.
Qed.

Lemma create_weather_table_rows fault w :
  stored_rows (final (create_weather_table fault w)) = stored_rows w.
Proof.
  rewrite create_weather_table_run. unfold final, stored_rows. simpl.
  destruct fault as [ex|]; simpl.
  - by destruct (is_sqlite3_Error ex).
  - rewrite created_db. simpl. by destruct (db w).
Qed.

(** X10.  [main] never deletes or rewrites a stored row: whatever the
    file held, whatever the answers and whatever fails, the rows the
    file held before the run are the first rows it holds after it, in
    the same order. *)
Theorem main_keeps_stored_rows locs e w :
  stored_rows w `prefix_of` stored_rows (final (main_over locs e w)).
Proof.
  rewrite main_over_run. unfold final. simpl.
  assert (∀ u, stored_rows (released u) = stored_rows u) as Hrel.
  { intros u. unfold stored_rows. by rewrite released_db. }
  rewrite Hrel.
  assert (∀ r w1, main_try locs e (started w) = (r, w1) →
            stored_rows w `prefix_of` stored_rows w1) as Hm.
  { intros r w1. rewrite main_try_run.
    destruct (sqlite3_connect e); [by intros [= _ <-]|].
    pose proof (create_weather_table_rows (execute_fault e)
                  (with_conn (Some Open) (add_event (EvConnect DB_FILE) (started w))))
      as Hc.
    destruct (create_weather_table _ _) as [[[]|ex] w2]; unfold final in Hc; simpl in Hc.
    - destruct (for_loc _ _ _ _ _) as [r3 w3] eqn:El.
      apply for_loc_keeps_rows in El. rewrite Hc in El.
      by destruct r3; intros [= _ <-].
    - intros [= _ <-]. by rewrite Hc. }
  destruct (main_try locs e (started w)) as [[[]|ex] w1] eqn:Et;
    by apply (Hm _ _ eq_refl).
Qed.

End driver_more.

(** X8 on an answer whose [current_weather] is an empty object. *)
Lemma falsy_payload_is_skipped_witness :
  let e := Mock.env (Mock.always (Mock.ok (PDict ∅))) Mock.noon in
  loop_body e 0 Mock.paris 0 new_world =
    (Returned 0,
     add_log (LogSkipping "Paris")
       (add_event (EvSleep 0.1) (add_event (EvGet (request_for Mock.paris)) new_world))).
Proof.
  intros e.
  apply (falsy_payload_is_skipped e 0 Mock.paris 0 new_world 200 ""
           {[ "current_weather" := PDict ∅ ]} (PDict ∅));
    [reflexivity|lia|reflexivity|reflexivity].
Defined.

(** X9 when the database file cannot be opened. *)
Lemma connect_failure_ends_run_witness :
  let ex := SqliteError "unable to open database file" in
  let e := @Build_environment Iso.pandas (Some ex) None
             (Mock.always (Mock.ok Mock.sunny)) (λ _, Mock.noon) (λ _, None) in
  main_over LOCATIONS e new_world =
    (Returned (),
     {| db := None; conn := None;
        stdout := [LogStarting; LogMainError ex];
        trace := [EvConnect DB_FILE] |}).
Proof.
  intros ex e. apply (connect_failure_ends_run LOCATIONS e new_world ex). reflexivity.
Defined.

Section pacing_more.
Context `{Pandas}.

Lemma loop_body_pacing e i loc n w r w' :
  loop_body e i loc n w = (r, w') →
  pacing (trace w') = pacing (trace w) ++ [EvGet (request_for loc); EvSleep 0.1] ∨
  (pacing (trace w') = pacing (trace w) ++ [EvGet (request_for loc)] ∧
   ∃ ex, r = Raised ex).
Proof.
  rewrite loop_body_run. unfold slept.
  destruct (fetched _ _) as [v|ex].
  2:{ intros [= <- <-]. right. split; [|by eexists]. simpl.
      by rewrite fetch_output_trace, pacing_app. }
  assert (pacing (trace (add_event (EvSleep 0.1)
                           (extend w (fetch_output (requests_get e i) loc))))
          = pacing (trace w) ++ [EvGet (request_for loc); EvSleep 0.1]) as Hp.
  { simpl. rewrite fetch_output_trace, <-app_assoc. by rewrite pacing_app. }
  destruct (truthy v); [|intros [= _ <-]; by left].
  destruct (normalize _ _ _) as [df|ex] eqn:En; [|intros [= _ <-]; by left].
  intros [= _ <-]. left.
  rewrite store_weather_data_trace by eauto using normalize_not_empty.
  rewrite pacing_single_other by done. exact Hp.
Qed.

Lemma for_loc_pacing e locs : ∀ i n w r w',
  for_loc e i locs n w = (r, w') →
  ∃ k, k ≤ length locs ∧
    (pacing (trace w') = pacing (trace w) ++ request_then_pause (take k locs) ∨
     ∃ loc, locs !! k = Some loc ∧
       pacing (trace w') =
         pacing (trace w) ++ request_then_pause (take k locs)
           ++ [EvGet (request_for loc)]) ∧
    (∀ n', r = Returned n' → k = length locs).
Proof.
  induction locs as [|loc rest IH]; intros i n w r w'; simpl.
  - intros [= <- <-]. exists 0. split; [done|]. split; [|done].
    left. unfold request_then_pause. simpl. by rewrite app_nil_r.
  - unfold mbind, M_bind.
    destruct (loop_body e i loc n w) as [rb w1] eqn:Eb.
    destruct (loop_body_pacing _ _ _ _ _ _ _ Eb) as [Hp|[Hp [ex ->]]].
    + destruct rb as [n1|ex].
      * intros Hr. destruct (IH _ _ _ _ _ Hr) as (k & Hk & Hcase & Hret).
        exists (S k). split; [lia|]. split.
        -- simpl. change (request_then_pause (loc :: take k rest))
             with ([EvGet (request_for loc); EvSleep 0.1] ++ request_then_pause (take k rest)).
           destruct Hcase as [Hk1|(loc' & Hl & Hk1)].
           ++ left. by rewrite Hk1, Hp, <-!app_assoc.
           ++ right. exists loc'. split; [done|]. by rewrite Hk1, Hp, <-!app_assoc.
        -- intros n' Hn'. by rewrite (Hret n' Hn').
      * intros [= <- <-]. exists 1. split; [lia|]. split; [|done].
        left. destruct rest; exact Hp.
    + intros [= <- <-]. exists 0. split; [lia|]. split; [|done].
      right. exists loc. split; [done|]. simpl. exact Hp.
Qed.

(** X11.  On every path through [main], aborted runs included, the
    outbound requests and the pauses alternate, starting with a request:
    the run asks for the first k locations of the registry in order, each
    request followed at once by its pause, and at most one more request,
    that for location k, is left without its pause (when that fetch
    itself raised).  Two requests are never sent without a pause between
    them, and the driver never pauses without having just sent one. *)
Theorem requests_and_pauses_alternate locs e w :
  ∃ k, k ≤ length locs ∧
    let p := pacing (trace (final (main_over locs e w))) in
    p = pacing (trace w) ++ request_then_pause (take k locs) ∨
    ∃ loc, locs !! k = Some loc ∧
      p = pacing (trace w) ++ request_then_pause (take k locs)
            ++ [EvGet (request_for loc)].
Proof.
  rewrite main_over_run. unfold final. simpl.
  assert (∀ u, pacing (trace (released u)) = pacing (trace u)) as Hrel.
  { intros u. unfold released. destruct (conn u); [|done]. simpl.
    by rewrite pacing_single_other. }
  rewrite Hrel.
  assert (∀ r w1, main_try locs e (started w) = (r, w1) →
            ∃ k, k ≤ length locs ∧
              (pacing (trace w1) = pacing (trace w) ++ request_then_pause (take k locs) ∨
               ∃ loc, locs !! k = Some loc ∧
                 pacing (trace w1) =
                   pacing (trace w) ++ request_then_pause (take k locs)
                     ++ [EvGet (request_for loc)])) as Hm.
  { intros r w1. rewrite main_try_run.
    assert (pacing (trace w) ++ request_then_pause (take 0 locs) = pacing (trace w))
      as H0 by (unfold request_then_pause; simpl; by rewrite app_nil_r).
    destruct (sqlite3_connect e).
    { intros [= _ <-]. exists 0. split; [lia|]. left. simpl.
      rewrite pacing_single_other by done. symmetry. exact H0. }
    pose proof (create_weather_table_trace (execute_fault e)
                  (with_conn (Some Open) (add_event (EvConnect DB_FILE) (started w))))
      as Hc.
    destruct (create_weather_table _ _) as [[[]|ex] w2]; unfold final in Hc; simpl in Hc.
    - destruct (for_loc _ _ _ _ _) as [r3 w3] eqn:El.
      destruct (for_loc_pacing _ _ _ _ _ _ _ El) as (k & Hk & Hcase & _).
      rewrite Hc, !pacing_single_other in Hcase by done.
      destruct r3; intros [= _ <-]; exists k; (split; [done|]); exact Hcase.
    - intros [= _ <-]. exists 0. split; [lia|]. left.
      rewrite Hc, !pacing_single_other by done. symmetry. exact H0. }
  destruct (main_try locs e (started w)) as [[[]|ex] w1] eqn:Et;
    destruct (Hm _ _ eq_refl) as (k & Hk & Hcase); exists k; (split; [done|]);
    simpl; exact Hcase.
Qed.

End pacing_more.

(** ** The pass as a fold over the table *)

Lemma insert_rows_undeclared rs : ∀ t,
  declared_schema t = false →
  insert_rows t rs = inr {| declared_schema := false; rows := rows t ++ rs |}.
Proof.
  induction rs as [|r rs IH]; intros t Hd; simpl.
  - rewrite app_nil_r. destruct t. simpl in Hd. by subst.
  - unfold insert_row. rewrite Hd. rewrite IH by done. simpl.
    by rewrite <-app_assoc.
Qed.

Lemma insert_or_ignore_fresh t r :
  declared_schema t = true → not_null_ok r = true →
  primary_key r ∉ primary_key <$> rows t →
  insert_or_ignore t r = {| declared_schema := true; rows := rows t ++ [r] |}.
Proof.
  intros Hd Hn Hk. unfold insert_or_ignore, insert_row.
  by rewrite Hd, Hn, bool_decide_false.
Qed.

Lemma foldl_insert_or_ignore_fresh rs : ∀ t,
  declared_schema t = true →
  Forall (λ r, not_null_ok r = true) rs →
  NoDup (primary_key <$> rows t ++ rs) →
  foldl insert_or_ignore t rs = {| declared_schema := true; rows := rows t ++ rs |}.
Proof.
  induction rs as [|r rs IH]; intros t Hd Hn Hk; simpl.
  - rewrite app_nil_r. destruct t. simpl in Hd. by subst.
  - apply Forall_cons in Hn as [Hr Hn].
    rewrite insert_or_ignore_fresh; [|done|done|].
    + rewrite IH; simpl; [by rewrite <-app_assoc|done|done|].
      by rewrite <-app_assoc.
    + rewrite fmap_app in Hk. apply NoDup_app in Hk as (_ & Hdis & _).
      intros Hin. apply (Hdis _ Hin). apply list_elem_of_fmap_2. by left.
Qed.

Section fold_facts.
Context `{Pandas}.

Lemma loop_body_fold e i loc n w r w' t :
  to_sql_fault e i = None →
  loop_body e i loc n w = (r, w') → db w = Some t →
  db w' = Some (foldl insert_or_ignore t (attempt e i loc)).
Proof.
  intros Hf Hb Hdb. rewrite loop_body_run in Hb. unfold attempt.
  destruct (fetched _ _) as [v|ex]; [|by injection Hb as _ <-].
  destruct (truthy v); [|by injection Hb as _ <-].
  destruct (normalize _ _ _) as [df|ex] eqn:En; [|by injection Hb as _ <-].
  injection Hb as _ <-.
  rewrite store_weather_data_db, Hf by eauto using normalize_not_empty.
  change (target_table (slept e i loc w)) with (target_table w).
  unfold target_table. rewrite Hdb. simpl.
  apply normalize_inv in En as (?&?&?&?&?&?&?&_&_&_&_&_&_&_&->). simpl.
  unfold insert_or_ignore. by destruct (insert_row t _).
Qed.

Lemma for_loc_fold e locs : ∀ i n w r w' t,
  (∀ j, to_sql_fault e j = None) →
  for_loc e i locs n w = (r, w') → db w = Some t →
  (∀ n', r = Returned n' →
     db w' = Some (foldl insert_or_ignore t (attempts e i locs))) ∧
  ∃ t', db w' = Some t'.
Proof.
  induction locs as [|loc rest IH]; intros i n w r w' t Hf; simpl.
  - intros [= <- <-] Hdb. split; [done|by eexists].
  - unfold mbind, M_bind.
    destruct (loop_body e i loc n w) as [[n1|ex] w1] eqn:Eb; intros Hr Hdb;
      pose proof (loop_body_fold _ _ _ _ _ _ _ _ (Hf i) Eb Hdb) as Hdb1.
    + destruct (IH _ _ _ _ _ _ Hf Hr Hdb1) as [Hret Hsome].
      split; [|done]. intros n' Hn'. by rewrite foldl_app, (Hret n' Hn').
    + injection Hr as <- <-. split; [done|by eexists].
Qed.

(** X12.  Without faults of the storage layer a completed pass is an
    INSERT OR IGNORE of the records it produced, in the order of the
    registry: the table at the end is the table the CREATE TABLE left
    (the one of the file, or the empty declared one) with each produced
    record appended when sqlite accepts it and dropped when it does not. *)
Theorem pass_is_insert_or_ignore locs e w w' :
  main_try locs e w = (Returned (), w') →
  execute_fault e = None →
  (∀ i, to_sql_fault e i = None) →
  db w' = Some (foldl insert_or_ignore
                  (default {| declared_schema := true; rows := [] |} (db w))
                  (attempts e 0 locs)).
Proof.
  intros Hrun Hx Hf.
  destruct (main_try_returned _ _ _ _ Hrun) as (n & w3 & _ & Hloop & ->).
  rewrite Hx in Hloop.
  eapply for_loc_fold in Hloop as [Hret _]; [|done|].
  - simpl. by apply (Hret n).
  - by rewrite create_weather_table_db, created_db.
Qed.

End fold_facts.

Section fold_theorems.
Context `{Pandas}.

Lemma for_loc_attempts_length e locs : ∀ i n w n' w',
  for_loc e i locs n w = (Returned n', w') →
  length (attempts e i locs) = records_produced e i locs.
Proof.
  induction locs as [|loc rest IH]; intros i n w n' w'; simpl; [done|].
  unfold mbind, M_bind.
  destruct (loop_body e i loc n w) as [[n1|ex] w1] eqn:Eb; [|done].
  intros Hr. rewrite length_app, (IH _ _ _ _ _ Hr). f_equal.
  rewrite loop_body_run in Eb. unfold attempt, produces_record.
  destruct (fetched _ _) as [v|]; [|done]. destruct (truthy v); [|done].
  destruct (normalize _ _ _) as [df|] eqn:En; [|done].
  by apply normalize_inv in En as (?&?&?&?&?&?&?&_&_&_&_&_&_&_&->).
Qed.

(** X13.  When the records a completed pass produces all have a
    timestamp and their keys are new, different from one another and from
    those of the stored rows, every one of them is stored: without faults
    of the storage layer the table ends as the rows it had followed by
    one row for each location that produced a record, in the order of the
    registry. *)
Theorem fresh_records_are_all_stored locs e w w' :
  main_try locs e w = (Returned (), w') →
  execute_fault e = None →
  (∀ i, to_sql_fault e i = None) →
  db_ok w →
  Forall (λ r, not_null_ok r = true) (attempts e 0 locs) →
  NoDup (primary_key <$> stored_rows w ++ attempts e 0 locs) →
  stored_rows w' = stored_rows w ++ attempts e 0 locs ∧
  length (attempts e 0 locs) = records_produced e 0 locs.
Proof.
  intros Hrun Hx Hf Hok Hn Hk.
  destruct (main_try_returned _ _ _ _ Hrun) as (n & w3 & _ & Hloop & ->).
  split; [|by eapply for_loc_attempts_length].
  rewrite Hx in Hloop.
  eapply for_loc_fold in Hloop as [Hret _];
    [|done|by rewrite create_weather_table_db, created_db].
  unfold stored_rows at 1. simpl. rewrite (Hret n eq_refl).
  rewrite foldl_insert_or_ignore_fresh.
  - simpl. unfold stored_rows. by destruct (db w).
  - simpl. unfold db_ok in Hok. destruct (db w); simpl; [by destruct Hok|done].
  - done.
  - simpl. unfold stored_rows in Hk. by destruct (db w).
Qed.

Lemma store_weather_data_undeclared (df : DataFrame) w :
  df ≠ [] →
  declared_schema (target_table w) = false →
  store_weather_data None df w =
    (Returned (),
     with_db (Some {| declared_schema := false;
                      rows := stored_rows w ++ (to_record <$> df) |})
       (add_event (EvToSql (to_record <$> df)) w)).
Proof.
  intros Hne Hd. rewrite store_weather_data_run by done. simpl.
  rewrite insert_rows_undeclared by done. by rewrite stored_rows_target.
Qed.

Lemma loop_body_undeclared e i loc n w r w' :
  to_sql_fault e i = None →
  loop_body e i loc n w = (r, w') →
  declared_schema (target_table w) = false →
  declared_schema (target_table w') = false ∧
  stored_rows w' = stored_rows w ++ attempt e i loc.
Proof.
  intros Hf Hb Hd. rewrite loop_body_run in Hb. unfold attempt.
  destruct (fetched _ _) as [v|ex];
    [|injection Hb as _ <-; by rewrite app_nil_r].
  destruct (truthy v); [|injection Hb as _ <-; by rewrite app_nil_r].
  destruct (normalize _ _ _) as [df|ex] eqn:En;
    [|injection Hb as _ <-; by rewrite app_nil_r].
  injection Hb as _ <-. rewrite Hf.
  rewrite store_weather_data_undeclared by eauto using normalize_not_empty.
  done.
Qed.

Lemma for_loc_undeclared e locs : ∀ i n w n' w',
  (∀ j, to_sql_fault e j = None) →
  for_loc e i locs n w = (Returned n', w') →
  declared_schema (target_table w) = false →
  stored_rows w' = stored_rows w ++ attempts e i locs.
Proof.
  induction locs as [|loc rest IH]; intros i n w n' w' Hf; simpl.
  - intros [= _ <-] _. by rewrite app_nil_r.
  - unfold mbind, M_bind.
    destruct (loop_body e i loc n w) as [[n1|ex] w1] eqn:Eb; [|done].
    intros Hr Hd.
    destruct (loop_body_undeclared _ _ _ _ _ _ _ (Hf i) Eb Hd) as [Hd1 Hrows].
    by rewrite (IH _ _ _ _ _ Hf Hr Hd1), Hrows, app_assoc.
Qed.

(** X14.  Only the table that CREATE TABLE made holds anything back.  When
    the file has a [weather_records] without the declared constraints, or
    has none and CREATE TABLE failed with a [sqlite3.Error] (which
    [create_weather_table] prints, and the run goes on), a completed pass
    without faults of [to_sql] stores every record it produced, after the
    rows that were there: [to_sql] makes or extends a table without
    constraints, so a null timestamp or a key already stored is no
    obstacle. *)
Theorem unconstrained_table_stores_every_record locs e w w' :
  main_try locs e w = (Returned (), w') →
  declared_schema (target_table w) = false →
  (db w = None → execute_fault e ≠ None) →
  (∀ i, to_sql_fault e i = None) →
  stored_rows w' = stored_rows w ++ attempts e 0 locs.
Proof.
  intros Hrun Hd Hx Hf.
  destruct (main_try_returned _ _ _ _ Hrun) as (n & w3 & _ & Hloop & ->).
  apply for_loc_undeclared in Hloop; [| done |].
  - change (stored_rows w3 = stored_rows w ++ attempts e 0 locs).
    by rewrite Hloop, create_weather_table_rows.
  - rewrite create_weather_table_run. simpl.
    destruct (execute_fault e) as [ex|] eqn:Ex; simpl.
    + by destruct (is_sqlite3_Error ex).
    + unfold created, target_table in *. destruct w as [[t|] c out tr]; simpl in *;
        [done|by destruct Hx].
Qed.

Lemma fetch_output_no_skipping get loc :
  filter is_skipping (stdout (fetch_output get loc)) = [].
Proof.
  fetch_cases get loc; try done.
  - by destruct (bool_decide _).
  - by destruct (existsb _ l).
  - by destruct (d !! "current_weather").
Qed.

Lemma store_weather_data_no_skipping fault (df : DataFrame) w :
  filter is_skipping (stdout (final (store_weather_data fault df w))) =
  filter is_skipping (stdout w).
Proof.
  destruct (decide (df = [])) as [->|Hne]; [done|].
  rewrite store_weather_data_run by done. unfold final. simpl.
  assert (∀ ex, filter is_skipping
                  (stdout (after_store_error ex (to_record <$> df)
                             (add_event (EvToSql (to_record <$> df)) w)))
                = filter is_skipping (stdout w)) as Herr.
  { intros ex. destruct ex; simpl; try done;
      rewrite filter_app; simpl; by rewrite app_nil_r. }
  destruct fault as [ex|]; [apply Herr|].
  destruct (insert_rows (target_table w) _) as [ex|]; [apply Herr|done].
Qed.

Lemma loop_body_skips e i loc n w n' w' :
  loop_body e i loc n w = (Returned n', w') →
  length (filter is_skipping (stdout w')) + (if produces_record e i loc then 1 else 0)
  = length (filter is_skipping (stdout w)) + 1.
Proof.
  rewrite loop_body_run. unfold produces_record, slept.
  destruct (fetched _ _) as [v|ex]; [|done].
  destruct (truthy v).
  - destruct (normalize _ _ _) as [df|]; [|done]. intros [= _ <-].
    rewrite store_weather_data_no_skipping. simpl.
    by rewrite filter_app, fetch_output_no_skipping, app_nil_r.
  - intros [= _ <-]. simpl.
    rewrite !filter_app, fetch_output_no_skipping, app_nil_r, length_app. simpl. lia.
Qed.

Lemma for_loc_skips e locs : ∀ i n w n' w',
  for_loc e i locs n w = (Returned n', w') →
  length (filter is_skipping (stdout w')) + records_produced e i locs
  = length (filter is_skipping (stdout w)) + length locs.
Proof.
  induction locs as [|loc rest IH]; intros i n w n' w'; simpl.
  - by intros [= _ <-].
  - unfold mbind, M_bind.
    destruct (loop_body e i loc n w) as [[n1|ex] w1] eqn:Eb; [|done].
    intros Hr. apply IH in Hr. apply loop_body_skips in Eb. lia.
Qed.

(** X15.  A completed pass accounts for every location of the registry:
    the skip lines it printed and the count of its summary add up to the
    number of locations.  Each location is either counted or has its
    skip line, never both and never neither. *)
Theorem every_location_is_counted_or_skipped locs e w w' :
  main_try locs e w = (Returned (), w') →
  length (filter is_skipping (stdout w')) + records_produced e 0 locs
  = length (filter is_skipping (stdout w)) + length locs.
Proof.
  intros Hrun.
  destruct (main_try_returned _ _ _ _ Hrun) as (n & w3 & _ & Hloop & ->).
  apply for_loc_skips in Hloop. rewrite create_weather_table_run in Hloop.
  simpl in *. rewrite filter_app. simpl. rewrite app_nil_r.
  rewrite Hloop. f_equal. f_equal.
  destruct (execute_fault e) as [ex|]; simpl.
  - destruct (is_sqlite3_Error ex); simpl; [|done].
    rewrite filter_app. simpl. by rewrite app_nil_r.
  - rewrite filter_app. simpl. rewrite app_nil_r.
    unfold created. by destruct (db _).
Qed.

End fold_theorems.

(** X12 on a registry that names Paris twice: the second record has the
    key of the first and is dropped. *)
Lemma pass_is_insert_or_ignore_witness :
  let e := Mock.env (Mock.always (Mock.ok Mock.sunny)) Mock.noon in
  let locs := [Mock.paris; Mock.paris] in
  let r := main_try locs e new_world in
  r = (Returned (), final r) ∧
  db (final r) =
    Some (foldl insert_or_ignore {| declared_schema := true; rows := [] |}
            (attempts e 0 locs)) ∧
  length (attempts e 0 locs) = 2 ∧
  length (stored_rows (final r)) = 1.
Proof.
  intros e locs r.
  assert (r = (Returned (), final r)) as Hr by (vm_compute; reflexivity).
  split; [exact Hr|].
  split; [|split; vm_compute; reflexivity].
  exact (pass_is_insert_or_ignore locs e new_world (final r) Hr eq_refl (λ _, eq_refl)).
Defined.

(** X13 on the registry of the script: fifteen records, fifteen rows. *)
Lemma fresh_records_are_all_stored_witness :
  let e := Mock.env (Mock.always (Mock.ok Mock.sunny)) Mock.noon in
  let r := main_try LOCATIONS e new_world in
  r = (Returned (), final r) ∧
  stored_rows (final r) = attempts e 0 LOCATIONS ∧
  length (attempts e 0 LOCATIONS) = 15.
Proof.
  intros e r.
  assert (r = (Returned (), final r)) as Hr by (vm_compute; reflexivity).
  split; [exact Hr|].
  assert (Forall (λ r, not_null_ok r = true) (attempts e 0 LOCATIONS)) as Hn
    by (vm_compute; repeat constructor).
  assert (NoDup (primary_key <$> stored_rows new_world ++ attempts e 0 LOCATIONS)) as Hk
    by (refine (bool_decide_unpack _ _); vm_compute; exact I).
  destruct (fresh_records_are_all_stored LOCATIONS e new_world (final r)
              Hr eq_refl (λ _, eq_refl) I Hn Hk) as [Hrows Hlen].
  split; [exact Hrows|]. rewrite Hlen. vm_compute. reflexivity.
Defined.

(** X14 on a file without the table whose CREATE TABLE fails: both
    records for Paris are stored, the same key twice. *)
Lemma unconstrained_table_stores_every_record_witness :
  let e := @Build_environment Iso.pandas None (Some (SqliteError "disk I/O error"))
             (Mock.always (Mock.ok Mock.sunny)) (λ _, Mock.noon) (λ _, None) in
  let locs := [Mock.paris; Mock.paris] in
  let r := main_try locs e new_world in
  r = (Returned (), final r) ∧
  stored_rows (final r) = attempts e 0 locs ∧
  length (stored_rows (final r)) = 2 ∧
  ¬ NoDup (stored_keys (final r)).
Proof.
  intros e locs r.
  assert (r = (Returned (), final r)) as Hr by (vm_compute; reflexivity).
  split; [exact Hr|].
  split; [|split].
  - exact (unconstrained_table_stores_every_record locs e new_world (final r)
             Hr eq_refl (λ _, ltac:(discriminate)) (λ _, eq_refl)).
  - vm_compute. reflexivity.
  - apply (bool_decide_unpack (¬ NoDup (stored_keys (final r)))).
    vm_compute. exact I.
Defined.

(** X15 on a registry of two, the server down for the first: one skip
    line and a count of one. *)
Lemma every_location_is_counted_or_skipped_witness :
  let e := Mock.env Mock.down_then_up Mock.noon in
  let locs := [Mock.paris; Mock.tokyo] in
  let r := main_try locs e new_world in
  r = (Returned (), final r) ∧
  length (filter is_skipping (stdout (final r))) + records_produced e 0 locs = 2 ∧
  filter is_skipping (stdout (final r)) = [LogSkipping "Paris"] ∧
  last (stdout (final r)) = Some (LogFinished 1).
Proof.
  intros e locs r.
  assert (r = (Returned (), final r)) as Hr by (vm_compute; reflexivity).
  split; [exact Hr|].
  split; [|split; vm_compute; reflexivity].
  exact (every_location_is_counted_or_skipped locs e new_world (final r) Hr).
Defined.

(** ** [store_weather_data] *)

Section storing.
Context `{Pandas}.

(** X16.  [store_weather_data] never raises, leaves the connection as it
    is and stores a frame whole or not at all: afterwards the table holds
    what it held, or what it held followed by every record of the frame,
    in the order of the frame, and in that case nothing was printed.  On
    an empty frame it does nothing at all, [to_sql] is not called. *)
Theorem store_weather_data_all_or_nothing fault (df : DataFrame) w :
  let run := store_weather_data fault df w in
  result run = Returned () ∧
  conn (final run) = conn w ∧
  (df = [] → final run = w) ∧
  (stored_rows (final run) = stored_rows w ∨
   stored_rows (final run) = stored_rows w ++ (to_record <$> df) ∧
   stdout (final run) = stdout w).
Proof.
  intros run. subst run.
  split; [by destruct (store_weather_data_returns fault df w) as [w' ->]|].
  split; [apply store_weather_data_conn|].
  split; [by intros ->|].
  destruct (decide (df = [])) as [->|Hne]; [by left|].
  rewrite store_weather_data_run by done. unfold final. simpl.
  assert (∀ ex, stored_rows (after_store_error ex (to_record <$> df)
                               (add_event (EvToSql (to_record <$> df)) w))
                = stored_rows w) as Herr.
  { intros ex. unfold stored_rows. by rewrite after_store_error_db. }
  destruct fault as [ex|]; [left; apply Herr|].
  destruct (insert_rows (target_table w) _) as [ex|t'] eqn:Ei; [left; apply Herr|].
  right. apply insert_rows_inv in Ei as [_ Hrows].
  split; [|done]. unfold stored_rows at 1. simpl. by rewrite Hrows, stored_rows_target.
Qed.

End storing.
